(** * EAIN agent: the decision engine and the provenance recorder

    A shallow embedding of [src/metta/metta_shim.py], [src/provenance/provenance.py]
    and [src/utils/helpers.py], and the properties of the rule chain, of the
    aggregation loop and of the provenance receipt.

    Conventions of the embedding.
    - A Python [str] is a [string] whose characters are the code points
      U+0000..U+00FF; [dict]s have [str] keys and keep their insertion order
      (an association list); numbers are [int] ([Z]) and binary64 [float]
      (primitive floats, so the arithmetic is the interpreter's).
    - A call that raises returns [Raise]; every handler in the sources is
      [except Exception], so the handlers do not look at the kind.
    - Two builtins of the interpreter are parameters: [float] applied to a
      [str], and [repr] of a [float] (class [PyBuiltins]). The properties hold
      for every instance; [PyReference] gives the one the examples run on.
    - The clock, the files and the log are threaded through a state monad. *)

From Stdlib Require Import ZArith List String Ascii Bool Lia Floats.
From Stdlib Require Import Permutation Sorted DecimalString.
Import ListNotations.

Set Warnings "-inexact-float,-register-all".
Open Scope string_scope.
Open Scope Z_scope.

(* ================================================================= *)
(** ** Python values and the builtins the sources call *)

Module Py.

Inductive PyVal : Type :=
| VNone
| VBool (b : bool)
| VInt (z : Z)
| VFloat (f : float)
| VStr (s : string)
| VList (l : list PyVal)
| VDict (d : list (string * PyVal)).

Definition Dict := list (string * PyVal).

(** The exceptions the modelled code can meet. *)
Inductive PyExn := TypeError | ValueError | AttributeError | OverflowError | OSError.

Inductive Exn (A : Type) : Type :=
| Ok (a : A)
| Raise (e : PyExn).
Arguments Ok {A} a.
Arguments Raise {A} e.

Definition ebind {A B} (m : Exn A) (k : A -> Exn B) : Exn B :=
  match m with
  | Ok a => k a
  | Raise e => Raise e
  end.

(** [try: m  except Exception: h] *)
Definition try_except {A} (m : Exn A) (h : A) : A :=
  match m with
  | Ok a => a
  | Raise _ => h
  end.

(** [float(s)] for a [str] and [repr(x)] for a [float]. *)
Class PyBuiltins := {
  float_of_str : string -> option float;
  float_repr : float -> string
}.

(** *** Dictionaries *)

(** [d.get(k)]: the value, or [None]. *)
Fixpoint lookup (k : string) (d : Dict) : option PyVal :=
  match d with
  | [] => None
  | (k', v) :: d' => if String.eqb k k' then Some v else lookup k d'
  end.

Definition get_default (k : string) (dflt : PyVal) (d : Dict) : PyVal :=
  match lookup k d with
  | Some v => v
  | None => dflt
  end.

Definition get (k : string) (d : Dict) : PyVal := get_default k VNone d.

Fixpoint remove (k : string) (d : Dict) : Dict :=
  match d with
  | [] => []
  | (k', v) :: d' => if String.eqb k k' then remove k d' else (k', v) :: remove k d'
  end.

Definition keys (d : Dict) : list string := map fst d.

(** A dictionary has each key once. *)
Definition wf_dict (d : Dict) : Prop := NoDup (keys d).

(** *** Truth value, [or], [is None] *)

Definition truthy (v : PyVal) : bool :=
  match v with
  | VNone => false
  | VBool b => b
  | VInt z => negb (z =? 0)
  | VFloat f => negb (f =? 0)%float
  | VStr s => negb (String.eqb s "")
  | VList l => match l with [] => false | _ => true end
  | VDict d => match d with [] => false | _ => true end
  end.

(** [a or b] *)
Definition py_or (a b : PyVal) : PyVal := if truthy a then a else b.

Definition is_none (v : PyVal) : bool :=
  match v with VNone => true | _ => false end.

(** *** Floats *)

(** [float(z)] for an [int]: the nearest binary64, ties to even;
    [OverflowError] when the result is not finite. *)
Definition float_of_int (z : Z) : Exn float :=
  match SpecFloat.binary_normalize 53 1024 z 0 false with
  | SpecFloat.S754_infinity _ => Raise OverflowError
  | sf => Ok (SF2Prim sf)
  end.

(** [float(v)] *)
Definition py_float `{PyBuiltins} (v : PyVal) : Exn float :=
  match v with
  | VNone => Raise TypeError
  | VBool b => Ok (if b then 1 else 0)%float
  | VInt z => float_of_int z
  | VFloat f => Ok f
  | VStr s => match float_of_str s with
              | Some f => Ok f
              | None => Raise ValueError
              end
  | VList _ => Raise TypeError
  | VDict _ => Raise TypeError
  end.

(** [max(a, b)] on floats: [b] only when [b > a]. *)
Definition py_max (a b : float) : float := if (a <? b)%float then b else a.

(** *** Strings *)

Definition in_range (lo hi : N) (c : ascii) : bool :=
  let n := N_of_ascii c in (N.leb lo n && N.leb n hi)%bool.

(** [str.lower] on one code point below U+0100: A-Z, and the Latin-1
    capitals U+00C0..U+00DE but the multiplication sign U+00D7. *)
Definition lower_char (c : ascii) : ascii :=
  if (in_range 65 90 c
      || (in_range 192 222 c && negb (N.eqb (N_of_ascii c) 215)))%bool
  then ascii_of_N (N_of_ascii c + 32)
  else c.

Fixpoint lower (s : string) : string :=
  match s with
  | EmptyString => EmptyString
  | String c s' => String (lower_char c) (lower s')
  end.

(** [str.isspace] on one code point below U+0100. *)
Definition is_space (c : ascii) : bool :=
  (in_range 9 13 c || in_range 28 32 c
   || N.eqb (N_of_ascii c) 133 || N.eqb (N_of_ascii c) 160)%bool.

Fixpoint lstrip (s : string) : string :=
  match s with
  | EmptyString => EmptyString
  | String c s' => if is_space c then lstrip s' else s
  end.

(** The string without its trailing white space. *)
Fixpoint rstrip (s : string) : string :=
  match s with
  | EmptyString => EmptyString
  | String c s' =>
      match rstrip s' with
      | EmptyString => if is_space c then EmptyString else String c EmptyString
      | r => String c r
      end
  end.

(** [s.strip()] *)
Definition strip (s : string) : string := rstrip (lstrip s).

End Py.

(* ================================================================= *)
(** ** SHA-256 (FIPS 180-4), as [hashlib.sha256(...).hexdigest()] computes it *)

Module Sha256.

(** 32-bit words are [Z] in [0, 2^32); sums wrap around. *)
Definition w32 (x : Z) : Z := x mod 2 ^ 32.
Definition add32 (a b : Z) : Z := w32 (a + b).
Definition rotr (n x : Z) : Z := Z.lor (Z.shiftr x n) (w32 (Z.shiftl x (32 - n))).
Definition not32 (x : Z) : Z := Z.lxor x 0xffffffff.

Definition Ch (x y z : Z) : Z := Z.lxor (Z.land x y) (Z.land (not32 x) z).
Definition Maj (x y z : Z) : Z :=
  Z.lxor (Z.lxor (Z.land x y) (Z.land x z)) (Z.land y z).
Definition Sigma0 (x : Z) : Z := Z.lxor (Z.lxor (rotr 2 x) (rotr 13 x)) (rotr 22 x).
Definition Sigma1 (x : Z) : Z := Z.lxor (Z.lxor (rotr 6 x) (rotr 11 x)) (rotr 25 x).
Definition sigma0 (x : Z) : Z := Z.lxor (Z.lxor (rotr 7 x) (rotr 18 x)) (Z.shiftr x 3).
Definition sigma1 (x : Z) : Z := Z.lxor (Z.lxor (rotr 17 x) (rotr 19 x)) (Z.shiftr x 10).

(** The first [n] primes, by trial division. *)
Definition is_prime (p : Z) : bool :=
  forallb (fun d => negb (p mod d =? 0)) (map Z.of_nat (seq 2 (Z.to_nat (Z.sqrt p) - 1))).

Definition primes (n : nat) : list Z :=
  firstn n (filter is_prime (map Z.of_nat (seq 2 400))).

(** The integer part of the cube root of [n < 2^108]. *)
Definition cube_root (n : Z) : Z :=
  fold_left (fun r b => let c := r + 2 ^ b in if c * c * c <=? n then c else r)
            (map Z.of_nat (rev (seq 0 36))) 0.

(** The round constants: the first 32 bits of the fractional parts of the
    cube roots of the first 64 primes. *)
Definition K : list Z :=
  Eval vm_compute in map (fun p => w32 (cube_root (p * 2 ^ 96))) (primes 64).

(** The eight working variables, and the hash value between blocks. *)
Record state := mkState {
  sa : Z; sb : Z; sc : Z; sd : Z; se : Z; sf : Z; sg : Z; sh : Z
}.

(** The initial hash value: the first 32 bits of the fractional parts of the
    square roots of the first 8 primes. *)
Definition H0 : state :=
  Eval vm_compute in
    match map (fun p => w32 (Z.sqrt (p * 2 ^ 64))) (primes 8) with
    | [a; b; c; d; e; f; g; h] => mkState a b c d e f g h
    | _ => mkState 0 0 0 0 0 0 0 0
    end.

(** The message, one bit 1, zeros up to 56 modulo 64, the bit length on
    eight bytes (big endian). *)
Definition be_bytes (n : nat) (x : Z) : list Z :=
  map (fun i => Z.land (Z.shiftr x (8 * Z.of_nat i)) 0xff) (rev (seq 0 n)).

Definition pad (msg : list Z) : list Z :=
  let len := Z.of_nat (List.length msg) in
  let zeros := Z.to_nat ((55 - len) mod 64) in
  msg ++ [0x80] ++ repeat 0 zeros ++ be_bytes 8 (8 * len).

(** Four bytes to a word, big endian. *)
Fixpoint words_of_bytes (bs : list Z) : list Z :=
  match bs with
  | b0 :: b1 :: b2 :: b3 :: rest =>
      Z.lor (Z.shiftl b0 24) (Z.lor (Z.shiftl b1 16) (Z.lor (Z.shiftl b2 8) b3))
      :: words_of_bytes rest
  | _ => []
  end.

(** The message schedule: [n] more words after the sixteen of the block,
    kept newest first. *)
Fixpoint schedule (n : nat) (rev_w : list Z) : list Z :=
  match n with
  | O => rev_w
  | S n' =>
      let w := add32 (add32 (sigma1 (nth 1 rev_w 0)) (nth 6 rev_w 0))
                     (add32 (sigma0 (nth 14 rev_w 0)) (nth 15 rev_w 0)) in
      schedule n' (w :: rev_w)
  end.

Definition round (s : state) (kw : Z * Z) : state :=
  let '(k, w) := kw in
  let t1 := add32 (add32 (add32 (sh s) (Sigma1 (se s)))
                         (add32 (Ch (se s) (sf s) (sg s)) k)) w in
  let t2 := add32 (Sigma0 (sa s)) (Maj (sa s) (sb s) (sc s)) in
  mkState (add32 t1 t2) (sa s) (sb s) (sc s) (add32 (sd s) t1) (se s) (sf s) (sg s).

Definition compress (h : state) (block : list Z) : state :=
  let w := rev (schedule 48 (rev (words_of_bytes block))) in
  let s := fold_left round (combine K w) h in
  mkState (add32 (sa h) (sa s)) (add32 (sb h) (sb s)) (add32 (sc h) (sc s))
          (add32 (sd h) (sd s)) (add32 (se h) (se s)) (add32 (sf h) (sf s))
          (add32 (sg h) (sg s)) (add32 (sh h) (sh s)).

(** One block of 64 bytes per unit of [fuel]. *)
Fixpoint blocks (fuel : nat) (h : state) (bs : list Z) : state :=
  match fuel, bs with
  | S fuel', _ :: _ => blocks fuel' (compress h (firstn 64 bs)) (skipn 64 bs)
  | _, _ => h
  end.

Definition hash (msg : list Z) : state :=
  let p := pad msg in blocks (List.length p) H0 p.

Definition hex_digit (n : Z) : ascii :=
  if n <? 10 then ascii_of_N (Z.to_N (48 + n)) else ascii_of_N (Z.to_N (87 + n)).

Definition nibble (x : Z) (i : Z) : ascii := hex_digit (Z.land (Z.shiftr x (4 * i)) 0xf).

(** A word as eight lowercase hexadecimal digits. *)
Definition hex32 (x : Z) : string :=
  String (nibble x 7) (String (nibble x 6) (String (nibble x 5) (String (nibble x 4)
  (String (nibble x 3) (String (nibble x 2) (String (nibble x 1) (String (nibble x 0)
  EmptyString))))))).

Definition hex_of_state (s : state) : string :=
  hex32 (sa s) ++ hex32 (sb s) ++ hex32 (sc s) ++ hex32 (sd s) ++
  hex32 (se s) ++ hex32 (sf s) ++ hex32 (sg s) ++ hex32 (sh s).

(** [hashlib.sha256(bytes).hexdigest()] *)
Definition hexdigest (msg : list Z) : string := hex_of_state (hash msg).

End Sha256.


(* ================================================================= *)
(** ** Text of values: [str], [repr], and [json.dumps] *)

Module PyText.
Import Py.

(** The double quote and the line feed, by code. *)
Definition dq : string := String (ascii_of_N 34) EmptyString.
Definition nl : string := String (ascii_of_N 10) EmptyString.

(** [str(z)] for an [int] *)
Definition int_str (z : Z) : string := DecimalString.NilZero.string_of_int (Z.to_int z).

Definition hex_char (n : N) : ascii :=
  if N.ltb n 10 then ascii_of_N (48 + n) else ascii_of_N (87 + n).

(** The code point on two hexadecimal digits. *)
Definition hex2 (n : N) : string :=
  String (hex_char (N.land (N.shiftr n 4) 15)) (String (hex_char (N.land n 15)) EmptyString).

Fixpoint contains (c : ascii) (s : string) : bool :=
  match s with
  | EmptyString => false
  | String c' s' => (Ascii.eqb c c' || contains c s')%bool
  end.

Fixpoint flat_map_string (f : ascii -> string) (s : string) : string :=
  match s with
  | EmptyString => EmptyString
  | String c s' => f c ++ flat_map_string f s'
  end.

(** [str.isprintable] on one code point below U+0100. *)
Definition is_printable (c : ascii) : bool :=
  let n := N_of_ascii c in
  (negb (N.ltb n 32) && negb (in_range 127 160 c) && negb (N.eqb n 173))%bool.

Definition repr_char (quote : ascii) (c : ascii) : string :=
  let n := N_of_ascii c in
  if (Ascii.eqb c quote || N.eqb n 92)%bool then String (ascii_of_N 92) (String c EmptyString)
  else if N.eqb n 9 then "\t"
  else if N.eqb n 10 then "\n"
  else if N.eqb n 13 then "\r"
  else if is_printable c then String c EmptyString
  else "\x" ++ hex2 n.

(** [repr(s)] for a [str]: single quotes, unless the text has one and has
    no double quote. *)
Definition repr_str (s : string) : string :=
  let sq := ascii_of_N 39 in
  let quote := if (contains sq s && negb (contains (ascii_of_N 34) s))%bool
               then ascii_of_N 34 else sq in
  String quote (flat_map_string (repr_char quote) s ++ String quote EmptyString).

Section WithBuiltins.
Context `{PyBuiltins}.

(** [repr(v)] *)
Fixpoint py_repr (v : PyVal) : string :=
  match v with
  | VNone => "None"
  | VBool b => if b then "True" else "False"
  | VInt z => int_str z
  | VFloat f => float_repr f
  | VStr s => repr_str s
  | VList l => "[" ++ String.concat ", " (map py_repr l) ++ "]"
  | VDict d =>
      "{" ++ String.concat ", "
               (map (fun kv => match kv with
                               | (k, x) => repr_str k ++ ": " ++ py_repr x
                               end) d) ++ "}"
  end.

(** [str(v)], which is what an f-string puts for [{v}]. *)
Definition py_str (v : PyVal) : string :=
  match v with
  | VStr s => s
  | _ => py_repr v
  end.

End WithBuiltins.

End PyText.

Module Json.
Import Py PyText.

(** The code point on four hexadecimal digits, as in [\uXXXX]. *)
Definition hex4 (n : N) : string := hex2 (N.shiftr n 8) ++ hex2 (N.land n 255).

(** One character of a JSON string under [ensure_ascii=True]. *)
Definition escape_char (c : ascii) : string :=
  let n := N_of_ascii c in
  if N.eqb n 34 then String (ascii_of_N 92) dq
  else if N.eqb n 92 then "\\"
  else if N.eqb n 10 then "\n"
  else if N.eqb n 13 then "\r"
  else if N.eqb n 9 then "\t"
  else if N.eqb n 8 then "\b"
  else if N.eqb n 12 then "\f"
  else if (N.ltb n 32 || N.ltb 126 n)%bool then "\u" ++ hex4 n
  else String c EmptyString.

Definition encode_string (s : string) : string :=
  dq ++ flat_map_string escape_char s ++ dq.

(** [sorted(items)] on pairs with distinct keys: by key, by code points. *)
Fixpoint insert_item {A} (x : string * A) (l : list (string * A)) : list (string * A) :=
  match l with
  | [] => [x]
  | y :: l' => if String.leb (fst x) (fst y) then x :: l else y :: insert_item x l'
  end.

Definition sort_items {A} (l : list (string * A)) : list (string * A) :=
  fold_right insert_item [] l.

Definition spaces (n : nat) : string := string_of_list_ascii (repeat " "%char n).

(** A container: empty, on one line ([indent=None]), or one item per line. *)
Definition wrap (opening closing : string) (indent : option nat) (level : nat)
                (items : list string) : string :=
  match items with
  | [] => opening ++ closing
  | _ =>
      match indent with
      | None => opening ++ String.concat ", " items ++ closing
      | Some n =>
          let inner := nl ++ spaces (n * S level) in
          opening ++ inner ++ String.concat ("," ++ inner) items
                  ++ nl ++ spaces (n * level) ++ closing
      end
  end.

Section WithBuiltins.
Context `{PyBuiltins}.

Definition encode_float (f : float) : string :=
  if negb (f =? f)%float then "NaN"
  else if (f =? infinity)%float then "Infinity"
  else if (f =? neg_infinity)%float then "-Infinity"
  else float_repr f.

(** [json.dumps(v, indent=indent, sort_keys=True)] at nesting depth [level].
    The values of a dictionary are encoded before the items are sorted, which
    is the same text: the order depends on the keys only. *)
Fixpoint encode (indent : option nat) (level : nat) (v : PyVal) : string :=
  match v with
  | VNone => "null"
  | VBool b => if b then "true" else "false"
  | VInt z => int_str z
  | VFloat f => encode_float f
  | VStr s => encode_string s
  | VList l => wrap "[" "]" indent level (map (encode indent (S level)) l)
  | VDict d =>
      wrap "{" "}" indent level
        (map (fun ke => encode_string (fst ke) ++ ": " ++ snd ke)
           (sort_items
              (map (fun kv => match kv with
                              | (k, x) => (k, encode indent (S level) x)
                              end) d)))
  end.

End WithBuiltins.

End Json.

(* ================================================================= *)
(** ** [src/utils/helpers.py] *)

Module Helpers.
Import Py PyText Json.

(** [s.encode("utf-8")] for code points below U+0100. *)
Definition utf8_char (c : ascii) : list Z :=
  let n := Z.of_N (N_of_ascii c) in
  if n <? 128 then [n]
  else [Z.lor 0xC0 (Z.shiftr n 6); Z.lor 0x80 (Z.land n 0x3F)].

Definition utf8 (s : string) : list Z := flat_map utf8_char (list_ascii_of_string s).

Section WithBuiltins.
Context `{PyBuiltins}.

(** [json.dumps(obj, sort_keys=True, default=str)]; every modelled value is
    serialisable, so [default] is never called. *)
Definition json_dumps_sorted (obj : PyVal) : string := encode None 0 obj.

Definition sha256_of_obj (obj : PyVal) : string :=
  let raw := json_dumps_sorted obj in
  Sha256.hexdigest (utf8 raw).

Definition pretty_json (obj : PyVal) : string := encode (Some 2%nat) 0 obj.

End WithBuiltins.

End Helpers.

(* ================================================================= *)
(** ** The world outside: clock, files, log *)

Module Effects.
Import Py.

Inductive Level := INFO | ERROR.

(** A log record: the text of the f-string, and the exception it formats
    at its end when there is one. *)
Record LogRecord := mkLog {
  log_level : Level;
  log_message : string;
  log_exc : option PyExn
}.

(** [w_clock] gives the successive readings of [int(time.time())];
    [w_writable] tells which paths [open(path, "w")] accepts. *)
Record World := mkWorld {
  w_clock : nat -> Z;
  w_reads : nat;
  w_files : list (string * string);
  w_writable : string -> bool;
  w_log : list LogRecord
}.

Definition M (A : Type) : Type := World -> A * World.

Definition ret {A} (a : A) : M A := fun w => (a, w).

Definition bind {A B} (m : M A) (k : A -> M B) : M B :=
  fun w => let (a, w') := m w in k a w'.

Notation "x <- m ;; k" := (bind m (fun x => k))
  (at level 61, m at next level, right associativity).
Notation "m ;;; k" := (bind m (fun _ => k))
  (at level 61, right associativity).

(** [int(time.time())] *)
Definition time_secs : M Z :=
  fun w => (w_clock w (w_reads w),
            mkWorld (w_clock w) (S (w_reads w)) (w_files w) (w_writable w) (w_log w)).

Definition emit (r : LogRecord) : M unit :=
  fun w => (tt, mkWorld (w_clock w) (w_reads w) (w_files w) (w_writable w) ((w_log w ++ [r])%list)).

Definition log_info (msg : string) : M unit := emit (mkLog INFO msg None).
Definition log_error (msg : string) (e : PyExn) : M unit := emit (mkLog ERROR msg (Some e)).

Fixpoint emit_all (rs : list LogRecord) : M unit :=
  match rs with
  | [] => ret tt
  | r :: rs' => emit r ;;; emit_all rs'
  end.

(** [with open(path, "w") as f: f.write(content)] *)
Definition write_file (path content : string) : M (Exn unit) :=
  fun w =>
    if w_writable w path
    then (Ok tt, mkWorld (w_clock w) (w_reads w) ((path, content) :: w_files w)
                         (w_writable w) (w_log w))
    else (Raise OSError, w).

End Effects.

(* ================================================================= *)
(** ** [src/utils/config.py] and [src/provenance/provenance.py] *)

Module Provenance.
Import Py PyText Helpers Effects.

(** [PROVENANCE_DIR] is read from the environment when the module loads. *)
Class Config := { PROVENANCE_DIR : string }.

Fixpoint last_char (s : string) : option ascii :=
  match s with
  | EmptyString => None
  | String c EmptyString => Some c
  | String _ s' => last_char s'
  end.

(** [os.path.join(a, b)] of [posixpath] *)
Definition path_join (a b : string) : string :=
  match b with
  | String "/"%char _ => b
  | _ =>
      match last_char a with
      | None => a ++ b
      | Some "/"%char => a ++ b
      | Some _ => a ++ "/" ++ b
      end
  end.

Section WithEnvironment.
Context `{PyBuiltins} `{Config}.

Definition record_provenance_blob (raw_api_response : Dict) (tag : PyVal) : M (Exn Dict) :=
  ts <- time_secs ;;
  let hash_ := sha256_of_obj (VDict raw_api_response) in
  let entry : Dict :=
    [("timestamp", VInt ts);
     ("source", get_default "source" (VStr "unknown") raw_api_response);
     ("symbol", py_or (get "symbol" raw_api_response) (get "id" raw_api_response));
     ("hash", VStr hash_);
     ("raw", VDict raw_api_response);
     ("tag", tag)] in
  let filename := py_str (get "symbol" entry) ++ "_" ++ int_str ts ++ ".json" in
  let path := path_join PROVENANCE_DIR filename in
  written <- write_file path (pretty_json (VDict entry)) ;;
  match written with
  | Ok _ =>
      log_info ("[PROVENANCE] Wrote provenance for " ++ py_str (get "symbol" entry)
                ++ " -> " ++ hash_)
  | Raise e =>
      log_error ("Failed to write provenance file " ++ path ++ ": ") e
  end ;;;
  ret (Ok [("symbol", get "symbol" entry); ("hash", VStr hash_);
           ("path", VStr path); ("timestamp", VInt ts)]).

End WithEnvironment.

End Provenance.

(* ================================================================= *)
(** ** [src/metta/metta_shim.py] *)

Module MettaShim.
Import Py PyText Helpers Effects Provenance.

Inductive Outcome := accept | reject | deprioritize.

Definition outcome_str (o : Outcome) : string :=
  match o with
  | accept => "accept"
  | reject => "reject"
  | deprioritize => "deprioritize"
  end.

Definition outcome_eqb (a b : Outcome) : bool :=
  match a, b with
  | accept, accept | reject, reject | deprioritize, deprioritize => true
  | _, _ => false
  end.

(** What a rule returns: [{"outcome": None}], or an outcome with the rule's
    name, evidence, confidence and note. A key that is absent is [None]. *)
Record RuleResult := mkResult {
  r_outcome : option Outcome;
  r_rule : option string;
  r_evidence : PyVal;
  r_confidence : option float;
  r_note : PyVal
}.

Definition no_outcome : RuleResult := mkResult None None VNone None VNone.

Record Thresholds := mkThresholds { max_volatility : float; min_return : float }.

Definition thresholds_dict (t : Thresholds) : PyVal :=
  VDict [("max_volatility", VFloat (max_volatility t)); ("min_return", VFloat (min_return t))].

(** Threshold presets for risk tolerance mapping *)
Definition RISK_THRESHOLDS : list (string * Thresholds) :=
  [("low", mkThresholds 0.15 0.03);
   ("medium", mkThresholds 0.30 0.06);
   ("high", mkThresholds 0.60 0.12)].

Fixpoint table_lookup (k : string) (t : list (string * Thresholds)) : option Thresholds :=
  match t with
  | [] => None
  | (k', v) :: t' => if String.eqb k k' then Some v else table_lookup k t'
  end.

(** [RISK_THRESHOLDS.get(risk, RISK_THRESHOLDS["medium"])]: a list or a
    dictionary is not hashable. *)
Definition thresholds_for (risk : PyVal) : Exn Thresholds :=
  let medium := mkThresholds 0.30 0.06 in
  match risk with
  | VStr s => Ok (match table_lookup s RISK_THRESHOLDS with
                  | Some t => t
                  | None => medium
                  end)
  | VList _ | VDict _ => Raise TypeError
  | _ => Ok medium
  end.

(** [v.lower()], [v.strip()]: methods of [str] only. *)
Definition method_lower (v : PyVal) : Exn string :=
  match v with
  | VStr s => Ok (lower s)
  | _ => Raise AttributeError
  end.

Definition method_strip (v : PyVal) : Exn string :=
  match v with
  | VStr s => Ok (strip s)
  | _ => Raise AttributeError
  end.

(** [for s in v]: the items of a list, the characters of a string, the keys
    of a dictionary. *)
Definition iterate (v : PyVal) : Exn (list PyVal) :=
  match v with
  | VList l => Ok l
  | VStr s => Ok (map (fun c => VStr (String c EmptyString)) (list_ascii_of_string s))
  | VDict d => Ok (map VStr (keys d))
  | _ => Raise TypeError
  end.

(** [[s.strip().lower() for s in items]] *)
Fixpoint normalised (items : list PyVal) : Exn (list string) :=
  match items with
  | [] => Ok []
  | s :: rest =>
      ebind (method_strip s) (fun t =>
      ebind (normalised rest) (fun ts => Ok (lower t :: ts)))
  end.

Definition member (x : string) (l : list string) : bool := existsb (String.eqb x) l.

Section WithEnvironment.
Context `{PyBuiltins} `{Config}.

(** Reject if asset sector is in investor's excluded industries. *)
Definition _rule_exclude_industry (investor asset : Dict) : Exn RuleResult :=
  let excluded := py_or (get "excluded_industries" investor) (VList []) in
  let sector := py_or (get_default "sector" (VStr "") asset) (VStr "") in
  if negb (truthy excluded) then Ok no_outcome
  else
    ebind (method_lower sector) (fun sector_lower =>
    ebind (iterate excluded) (fun items =>
    ebind (normalised items) (fun names =>
      if member sector_lower names then
        Ok (mkResult (Some reject) (Some "exclude_by_industry")
              (VDict [("sector", sector); ("excluded", excluded)])
              (Some 0.95%float)
              (VStr ("Asset sector '" ++ py_str sector
                     ++ "' matches investor excluded industries")))
      else Ok no_outcome))).

(** Reject if carbon_emissions/carbon score > investor.max_carbon_score (if set). *)
Definition _rule_exclude_by_carbon (investor asset : Dict) : Exn RuleResult :=
  let max_carbon := get "max_carbon_score" investor in
  let asset_carbon := py_or (get "carbon_emissions" asset) (get "carbon_score" asset) in
  if (is_none max_carbon || is_none asset_carbon)%bool then Ok no_outcome
  else
    match py_float asset_carbon with
    | Raise _ => Ok no_outcome
    | Ok ac =>
        ebind (py_float max_carbon) (fun mc =>
          if (mc <? ac)%float then
            Ok (mkResult (Some reject) (Some "exclude_by_carbon")
                  (VDict [("carbon", VFloat ac); ("max_allowed", max_carbon)])
                  (Some 0.9%float)
                  (VStr ("Asset carbon " ++ float_repr ac ++ " > investor max "
                         ++ py_str max_carbon)))
          else Ok no_outcome)
    end.

(** Deprioritize if the percent change in last quote is less than -5%. *)
Definition _rule_recent_large_drop (investor asset : Dict) : Exn RuleResult :=
  let pct := get "percent_change" asset in
  if is_none pct then Ok no_outcome
  else
    match py_float pct with
    | Ok f =>
        if (f <=? -5)%float then
          Ok (mkResult (Some deprioritize) (Some "recent_large_drop")
                (VDict [("percent_change", pct)])
                (Some 0.7%float)
                (VStr "Asset dropped more than 5% recently"))
        else Ok no_outcome
    | Raise _ => Ok no_outcome
    end.

(** [float(v) if v is not None else None], under [try ... except: None] *)
Definition float_or_none (v : PyVal) : option float :=
  if is_none v then None
  else match py_float v with
       | Ok f => Some f
       | Raise _ => None
       end.

Definition opt_float (o : option float) : PyVal :=
  match o with
  | Some f => VFloat f
  | None => VNone
  end.

(** Accept if expected_return >= threshold & volatility <= threshold;
    [percent_change] is the proxy when [expected_return] is absent. *)
Definition _rule_return_and_risk (investor asset : Dict) : Exn RuleResult :=
  let risk := get_default "risk_tolerance" (VStr "medium") investor in
  ebind (thresholds_for risk) (fun thresholds =>
  let expected_return := get "expected_return" asset in
  let volatility :=
    py_or (py_or (get "volatility" asset) (get "beta" asset)) (get "stddev" asset) in
  ebind (if is_none expected_return then
           let pct := get "percent_change" asset in
           if negb (is_none pct) then
             ebind (py_float pct) (fun f => Ok (VFloat (py_max (f / 100.0) 0.0)))
           else Ok expected_return
         else Ok expected_return) (fun expected_return =>
  let exp_r := float_or_none expected_return in
  let vol := float_or_none volatility in
  match exp_r with
  | None => Ok no_outcome
  | Some e =>
      let evidence :=
        VDict [("expected_return", VFloat e); ("volatility", opt_float vol);
               ("thresholds", thresholds_dict thresholds)] in
      if ((min_return thresholds <=? e)%float
          && match vol with
             | None => true
             | Some v => (v <=? max_volatility thresholds)%float
             end)%bool
      then Ok (mkResult (Some accept) (Some "accept_by_return_and_risk") evidence
                 (Some 0.8%float) (VStr "Meets expected return and volatility thresholds"))
      else Ok (mkResult (Some deprioritize) (Some "deprioritize_by_return_or_risk") evidence
                 (Some 0.6%float) (VStr "Fails return / volatility requirements"))
  end)).

(** A rule function with its [__name__]. *)
Record Rule := mkRule {
  rule_name : string;
  rule_fn : Dict -> Dict -> Exn RuleResult
}.

(** Ordered list of rule functions to execute (short-circuiting where appropriate) *)
Definition RULES : list Rule :=
  [mkRule "_rule_exclude_industry" _rule_exclude_industry;
   mkRule "_rule_exclude_by_carbon" _rule_exclude_by_carbon;
   mkRule "_rule_recent_large_drop" _rule_recent_large_drop;
   mkRule "_rule_return_and_risk" _rule_return_and_risk].

Record ReasonNode := mkNode {
  n_rule : string;
  n_outcome : Outcome;
  n_evidence : PyVal;
  n_note : PyVal;
  n_confidence : float
}.

(** The variables of the loop of [evaluate_asset]. [st_errors] holds the
    records of [log.error], in order; [st_called] is not in the source: it
    keeps the names of the rule functions the loop has called. *)
Record LoopState := mkLoop {
  st_reason_tree : list ReasonNode;
  st_final_decision : option Outcome;
  st_final_confidence : float;
  st_errors : list LogRecord;
  st_called : list string
}.

Definition loop_init : LoopState := mkLoop [] None 0.0%float [] [].

(** The node built from a rule's result, given its outcome. *)
Definition node_of (r : Rule) (res : RuleResult) (o : Outcome) : ReasonNode :=
  mkNode (match r_rule res with Some n => n | None => rule_name r end)
         o (r_evidence res) (r_note res)
         (match r_confidence res with Some c => c | None => 0.5%float end).

(** Decide precedence: reject overrides accept, deprioritize is weaker than
    accept. The boolean is [true] on [break]. *)
Definition apply_node (node : ReasonNode) (st : LoopState) : LoopState * bool :=
  let tree := (st_reason_tree st ++ [node])%list in
  let raised := py_max (st_final_confidence st) (n_confidence node) in
  let keep := mkLoop tree (st_final_decision st) (st_final_confidence st)
                     (st_errors st) (st_called st) in
  let set d := mkLoop tree (Some d) raised (st_errors st) (st_called st) in
  match n_outcome node with
  | reject => (set reject, true)
  | accept =>
      match st_final_decision st with
      | Some accept => (keep, false)
      | _ => (set accept, false)
      end
  | deprioritize =>
      match st_final_decision st with
      | Some accept | Some reject => (keep, false)
      | _ => (set deprioritize, false)
      end
  end.

(** One turn of [for rule_fn in RULES]. *)
Definition step (investor asset : Dict) (symbol : PyVal) (r : Rule) (st : LoopState)
  : LoopState * bool :=
  let st := mkLoop (st_reason_tree st) (st_final_decision st) (st_final_confidence st)
                   (st_errors st) (st_called st ++ [rule_name r])%list in
  match rule_fn r investor asset with
  | Raise e =>
      (mkLoop (st_reason_tree st) (st_final_decision st) (st_final_confidence st)
              (st_errors st ++ [mkLog ERROR ("Rule " ++ rule_name r ++ " exception for "
                                             ++ py_str symbol ++ ": ") (Some e)])%list
              (st_called st), false)
  | Ok res =>
      match r_outcome res with
      | None => (st, false)
      | Some o => apply_node (node_of r res o) st
      end
  end.

Fixpoint run_rules (investor asset : Dict) (symbol : PyVal) (rules : list Rule)
                   (st : LoopState) : LoopState :=
  match rules with
  | [] => st
  | r :: rest =>
      let (st', stop) := step investor asset symbol r st in
      if stop then st' else run_rules investor asset symbol rest st'
  end.

Record Decision := mkDecision {
  d_asset : PyVal;
  d_decision : Outcome;
  d_score : float;
  d_reason_tree : list ReasonNode;
  d_confidence : float;
  d_provenance : option Dict;
  d_timestamp : Z
}.

(** [mapping.get(final_decision, 0.5)] with
    [mapping = {"accept": 1.0, "deprioritize": 0.5, "reject": 0.0}] *)
Definition mapping (o : Outcome) : float :=
  match o with
  | accept => 1.0
  | deprioritize => 0.5
  | reject => 0.0
  end%float.

Definition default_node : ReasonNode :=
  mkNode "default_deprioritize" deprioritize VNone
         (VStr "No rules strongly matched; default deprioritize") 0.2%float.

(** [evaluate_asset] over a list of rules; the source runs it on [RULES]. *)
Definition evaluate_with (rules : list Rule) (investor asset : Dict)
                         (record_provenance : bool) : M Decision :=
  let symbol := py_or (py_or (get "symbol" asset) (get "id" asset)) (VStr "UNKNOWN") in
  let st := run_rules investor asset symbol rules loop_init in
  emit_all (st_errors st) ;;;
  let '(final_decision, final_confidence, reason_tree) :=
    match st_final_decision st with
    | None => (deprioritize, 0.2%float, (st_reason_tree st ++ [default_node])%list)
    | Some d => (d, st_final_confidence st, st_reason_tree st)
    end in
  let score := (mapping final_decision * final_confidence)%float in
  provenance_entry <-
    (if record_provenance then
       recorded <- record_provenance_blob asset (VStr "metta_input") ;;
       match recorded with
       | Ok entry => ret (Some entry)
       | Raise e =>
           log_error ("Failed to record provenance for " ++ py_str symbol ++ ": ") e ;;;
           ret None
       end
     else ret None) ;;
  now <- time_secs ;;
  log_info ("[METTA_SHIM] Decision for " ++ py_str symbol ++ ": "
            ++ outcome_str final_decision ++ " (score " ++ float_repr score ++ ")") ;;;
  ret (mkDecision symbol final_decision score reason_tree final_confidence
                  provenance_entry now).

Definition evaluate_asset : Dict -> Dict -> bool -> M Decision := evaluate_with RULES.

End WithEnvironment.

End MettaShim.

(* ================================================================= *)
(** ** [src/metta/metta_client.py] *)

Module MettaClient.
Import Py PyText Helpers Effects Provenance MettaShim.

(** [str(e)] for an exception, which the sources put in a reason node. *)
Class ExnText := { exn_str : PyExn -> string }.

(** [d[k] = v]: the value is replaced where the key stands, or the pair is
    added at the end. *)
Fixpoint set_item (k : string) (v : PyVal) (d : Dict) : Dict :=
  match d with
  | [] => [(k, v)]
  | (k', x) :: d' =>
      if String.eqb k k' then (k, v) :: d' else (k', x) :: set_item k v d'
  end.

(** The state of the module: the world, the dictionary [ATOM_STORE], the
    successive values of [uuid.uuid4().hex], and the records of [log.debug]
    (the log of the world has the levels INFO and ERROR only). *)
Record Client := mkClient {
  c_world : World;
  ATOM_STORE : Dict;
  c_uuid : nat -> string;
  c_drawn : nat;
  c_debug : list string
}.

Definition C (A : Type) : Type := Client -> A * Client.

Definition cret {A} (a : A) : C A := fun c => (a, c).

Definition cbind {A B} (m : C A) (k : A -> C B) : C B :=
  fun c => let (a, c') := m c in k a c'.

Notation "x <-- m ;; k" := (cbind m (fun x => k))
  (at level 61, m at next level, right associativity).
Notation "m ;;- k" := (cbind m (fun _ => k))
  (at level 61, right associativity).

(** An action on the world, run in the client. *)
Definition lift {A} (m : M A) : C A :=
  fun c => let (a, w) := m (c_world c) in
           (a, mkClient w (ATOM_STORE c) (c_uuid c) (c_drawn c) (c_debug c)).

(** [uuid.uuid4().hex] *)
Definition uuid4_hex : C string :=
  fun c => (c_uuid c (c_drawn c),
            mkClient (c_world c) (ATOM_STORE c) (c_uuid c) (S (c_drawn c)) (c_debug c)).

(** [ATOM_STORE[k] = v] *)
Definition store (k : string) (v : PyVal) : C unit :=
  fun c => (tt, mkClient (c_world c) (set_item k v (ATOM_STORE c)) (c_uuid c)
                         (c_drawn c) (c_debug c)).

Definition log_debug (msg : string) : C unit :=
  fun c => (tt, mkClient (c_world c) (ATOM_STORE c) (c_uuid c) (c_drawn c)
                         (c_debug c ++ [msg])%list).

(** [timestamp_secs()] of [src/utils/helpers.py] *)
Definition timestamp_secs : M Z := time_secs.

(** Store atom in local in-memory store and return an id. Atom is enriched
    with a timestamp and generated id. *)
Definition _store_atom (atom : Dict) : C string :=
  u <-- uuid4_hex ;;
  let atom_id := "atom_" ++ substring 0 12 u in
  let atom_copy := set_item "_id" (VStr atom_id) atom in
  ts <-- lift timestamp_secs ;;
  let atom_copy := set_item "_ts" (VInt ts) atom_copy in
  store atom_id (VDict atom_copy) ;;-
  log_debug ("[METTA_CLIENT] Stored atom " ++ atom_id) ;;-
  cret atom_id.

Definition assert_investor_profile (profile : Dict) : C string :=
  _store_atom [("type", VStr "Investor"); ("profile", VDict profile)].

Definition assert_asset_atom (asset : Dict) : C string :=
  _store_atom [("type", VStr "Asset"); ("asset", VDict asset)].

(** The dictionaries that [evaluate_asset] builds, which the records
    [ReasonNode] and [Decision] stand for. *)
Definition node_dict (n : ReasonNode) : PyVal :=
  VDict [("rule", VStr (n_rule n)); ("outcome", VStr (outcome_str (n_outcome n)));
         ("evidence", n_evidence n); ("note", n_note n);
         ("confidence", VFloat (n_confidence n))].

Definition decision_dict (d : Decision) : Dict :=
  [("asset", d_asset d);
   ("decision", VStr (outcome_str (d_decision d)));
   ("score", VFloat (d_score d));
   ("reason_tree", VList (map node_dict (d_reason_tree d)));
   ("confidence", VFloat (d_confidence d));
   ("provenance", match d_provenance d with Some r => VDict r | None => VNone end);
   ("timestamp", VInt (d_timestamp d))].

Section WithShim.
Context `{ExnText}.

(** What the client calls as [metta_shim.evaluate_asset]. *)
Variable shim : Dict -> Dict -> bool -> M (Exn Decision).

(** Evaluate single asset for a given investor_profile using metta_shim. *)
Definition evaluate_asset_for_investor_with (asset investor_profile : Dict)
                                            (record_provenance : bool) : C Dict :=
  inv_atom_id <-- assert_investor_profile investor_profile ;;
  asset_atom_id <-- assert_asset_atom asset ;;
  evaluated <-- lift (shim investor_profile asset record_provenance) ;;
  decision <--
    match evaluated with
    | Ok d => cret (decision_dict d)
    | Raise e =>
        lift (log_error "metta_shim evaluation error: " e) ;;-
        now <-- lift timestamp_secs ;;
        cret [("asset", get "symbol" asset);
              ("decision", VStr "deprioritize");
              ("score", VFloat 0.0);
              ("reason_tree", VList [VDict [("rule", VStr "metta_error");
                                            ("note", VStr (exn_str e))]]);
              ("confidence", VFloat 0.0);
              ("provenance", VNone);
              ("timestamp", VInt now)]
    end ;;
  let decision := set_item "_investor_atom" (VStr inv_atom_id) decision in
  let decision := set_item "_asset_atom" (VStr asset_atom_id) decision in
  u <-- uuid4_hex ;;
  let decision := set_item "_decision_id" (VStr ("decision_" ++ substring 0 10 u)) decision in
  store ("decision_" ++ substring 0 10 u) (VDict decision) ;;-
  cret decision.

(** [batch_evaluate]: in the model [evaluate_asset_for_investor] does not
    raise, so every asset gives a result; the results come in the order of
    the assets, as [results.append] puts them. *)
Fixpoint batch_evaluate_with (assets : list Dict) (investor_profile : Dict)
                             (record_provenance : bool) : C (list Dict) :=
  match assets with
  | [] => cret []
  | a :: rest =>
      res <-- evaluate_asset_for_investor_with a investor_profile record_provenance ;;
      results <-- batch_evaluate_with rest investor_profile record_provenance ;;
      cret (res :: results)
  end.

End WithShim.

Section WithEnvironment.
Context `{PyBuiltins} `{Config} `{ExnText}.

(** [metta_shim.evaluate_asset], which returns in the model. *)
Definition the_shim (investor asset : Dict) (record_provenance : bool) : M (Exn Decision) :=
  d <- evaluate_asset investor asset record_provenance ;; ret (Ok d).

Definition evaluate_asset_for_investor : Dict -> Dict -> bool -> C Dict :=
  evaluate_asset_for_investor_with the_shim.

Definition batch_evaluate : list Dict -> Dict -> bool -> C (list Dict) :=
  batch_evaluate_with the_shim.

End WithEnvironment.

(** [ATOM_STORE.get(atom_id)] *)
Definition get_atom (atom_id : string) : C PyVal :=
  fun c => (get atom_id (ATOM_STORE c), c).

End MettaClient.

(* ================================================================= *)
(** ** [src/market]: the data sources and the market agent *)

Module Market.
Import Py PyText Helpers Effects.

(** What a request can raise: [requests.HTTPError], or another exception. *)
Inductive NetExn := HTTPError | OtherError (e : PyExn).

Inductive NetResult (A : Type) : Type :=
| NetOk (a : A)
| NetRaise (e : NetExn).
Arguments NetOk {A} a.
Arguments NetRaise {A} e.

(** The network: the key of [src/utils/config.py]; [_get(endpoint, {"symbol":
    symbol})] of the Finnhub source, which is [requests.get], [raise_for_status]
    and [json]; [cg.get_price] of the CoinGecko client; and the Yahoo source
    as a whole, which goes through [yfinance] and catches every exception. *)
Class Network := {
  FINNHUB_API_KEY : PyVal;
  finnhub_get : string -> string -> M (NetResult PyVal);
  cg_get_price : string -> M (Exn PyVal);
  yahoo_fetch : string -> M PyVal
}.

(** [safe_get(d, key)] of [src/utils/helpers.py]:
    [d.get(key, default) if isinstance(d, dict) else default] *)
Definition safe_get_default (d : PyVal) (key : string) (dflt : PyVal) : PyVal :=
  match d with
  | VDict m => get_default key dflt m
  | _ => dflt
  end.

Definition safe_get (d : PyVal) (key : string) : PyVal := safe_get_default d key VNone.

Section WithNetwork.
Context `{Network}.

(** The asset that the Finnhub source builds from the three answers. *)
Definition finnhub_asset (symbol : string) (quote profile esg : PyVal) (now : Z) : Dict :=
  [("symbol", VStr symbol);
   ("price", safe_get quote "c");
   ("open", safe_get quote "o");
   ("high", safe_get quote "h");
   ("low", safe_get quote "l");
   ("prev_close", safe_get quote "pc");
   ("change", safe_get quote "d");
   ("percent_change", safe_get quote "dp");
   ("timestamp", VInt now);
   ("sector", safe_get profile "finnhubIndustry");
   ("market_cap", safe_get profile "marketCapitalization");
   ("name", safe_get profile "name");
   ("exchange", safe_get profile "exchange");
   ("currency", safe_get profile "currency");
   ("carbon_emissions", safe_get esg "carbonEmissions");
   ("total_emissions", safe_get esg "totalEmissions");
   ("governance_score", safe_get esg "governanceScore");
   ("sustainability_report", safe_get esg "sustainabilityReport");
   ("source", VStr "finnhub")].

(** The two handlers at the end of [finnhub_source.fetch]. The record of an
    [HTTPError] carries no exception of the model. *)
Definition finnhub_failed (symbol : string) (e : NetExn) : M PyVal :=
  match e with
  | HTTPError =>
      emit (mkLog ERROR ("Finnhub HTTP error for " ++ symbol ++ ": ") None)
  | OtherError x =>
      log_error ("Unexpected error fetching " ++ symbol ++ " from Finnhub: ") x
  end ;;;
  ret VNone.

(** Fetch live quote + profile + esg data for a symbol from Finnhub. *)
Definition finnhub_fetch (symbol : string) : M PyVal :=
  if negb (truthy FINNHUB_API_KEY) then
    emit (mkLog ERROR "FINNHUB_API_KEY is not set in environment" None) ;;;
    ret VNone
  else
    got_quote <- finnhub_get "quote" symbol ;;
    match got_quote with
    | NetRaise e => finnhub_failed symbol e
    | NetOk quote =>
        got_profile <- finnhub_get "stock/profile2" symbol ;;
        match got_profile with
        | NetRaise e => finnhub_failed symbol e
        | NetOk profile =>
            got_esg <- finnhub_get "stock/esg" symbol ;;
            match got_esg with
            | NetRaise (OtherError x) => finnhub_failed symbol (OtherError x)
            | NetRaise HTTPError =>
                now <- time_secs ;;
                ret (VDict (finnhub_asset symbol quote profile (VDict []) now))
            | NetOk esg =>
                now <- time_secs ;;
                ret (VDict (finnhub_asset symbol quote profile esg now))
            end
        end
    end.

Definition coingecko_asset (symbol_or_id : string) (entry : Dict) (now : Z) : Dict :=
  [("symbol", VStr symbol_or_id);
   ("price", get "usd" entry);
   ("market_cap", get "usd_market_cap" entry);
   ("24h_change", get "usd_24h_change" entry);
   ("timestamp", VInt now);
   ("source", VStr "coingecko")].

Definition coingecko_failed (symbol_or_id : string) (e : PyExn) : M PyVal :=
  log_error ("CoinGecko fetch error for " ++ symbol_or_id ++ ": ") e ;;;
  ret VNone.

Definition occurs_in (x s : string) : bool :=
  match index 0 x s with
  | Some _ => true
  | None => false
  end.

(** Fetch crypto asset by CoinGecko id. After [not data], the test
    [symbol_or_id not in data] and the subscript [data[symbol_or_id]] go
    together: on a dictionary they look the key up; a list or a string that
    holds the id cannot be subscripted by it; another value cannot be
    searched. The entry must have a method [get]. *)
Definition coingecko_fetch (symbol_or_id : string) : M PyVal :=
  got <- cg_get_price symbol_or_id ;;
  match got with
  | Raise e => coingecko_failed symbol_or_id e
  | Ok data =>
      if negb (truthy data) then ret VNone
      else
        match data with
        | VDict d =>
            match lookup symbol_or_id d with
            | None => ret VNone
            | Some (VDict entry) =>
                now <- time_secs ;;
                ret (VDict (coingecko_asset symbol_or_id entry now))
            | Some _ => coingecko_failed symbol_or_id AttributeError
            end
        | VList l =>
            if existsb (fun v => match v with
                                 | VStr s => String.eqb symbol_or_id s
                                 | _ => false
                                 end) l
            then coingecko_failed symbol_or_id TypeError
            else ret VNone
        | VStr s =>
            if occurs_in symbol_or_id s
            then coingecko_failed symbol_or_id TypeError
            else ret VNone
        | _ => coingecko_failed symbol_or_id TypeError
        end
  end.

Definition DEFAULT_SYMBOLS : list string := ["AAPL"; "MSFT"; "NVDA"; "GOOGL"; "TSLA"].

Definition get_asset_data (symbol source : string) : M PyVal :=
  if String.eqb source "finnhub" then finnhub_fetch symbol
  else if String.eqb source "yahoo" then yahoo_fetch symbol
  else if String.eqb source "coingecko" then coingecko_fetch symbol
  else
    emit (mkLog ERROR ("Unsupported market data source requested: " ++ source) None) ;;;
    ret VNone.

(** The loop of [get_candidates]. No source raises, so the handler of the
    loop is not reached. *)
Fixpoint candidates_of (symbols : list string) (source : string) : M (list PyVal) :=
  match symbols with
  | [] => ret []
  | sym :: rest =>
      data <- get_asset_data sym source ;;
      results <- candidates_of rest source ;;
      ret (if truthy data then data :: results else results)
  end.

(** [get_candidates(symbols, source)]; [symbols] is a list or [None]. *)
Definition get_candidates (symbols : option (list string)) (source : string)
  : M (list PyVal) :=
  let symbols := match symbols with
                 | Some (s :: l) => s :: l
                 | _ => DEFAULT_SYMBOLS
                 end in
  candidates_of symbols source.

End WithNetwork.

End Market.

(* ================================================================= *)
(** ** The two builtins, for the examples

    [float] of a [str] and [repr] of a [float] as CPython computes them, on
    code points below U+0100. The properties below hold for every instance
    of [PyBuiltins]; this one instantiates them in the examples. *)

Module PyReference.
Import Py PyText.

(** The binary64 nearest to [n / d], ties to even, for [n >= 0] and [d > 0];
    infinite when too large. *)
Definition nearest_float (n d : Z) : float :=
  match n, d with
  | Zpos pn, Zpos pd =>
      SF2Prim (SpecFloat.SFdiv 53 1024 (SpecFloat.S754_finite false pn 0)
                                       (SpecFloat.S754_finite false pd 0))
  | _, _ => 0%float
  end.

(** The binary64 nearest to [m * 10 ^ e]. *)
Definition decimal_float (m e : Z) : float :=
  if 0 <=? e then nearest_float (m * 10 ^ e) 1 else nearest_float m (10 ^ (- e)).

Definition digit_of (c : ascii) : option Z :=
  if in_range 48 57 c then Some (Z.of_N (N_of_ascii c) - 48) else None.

(** Digits, with single underscores between them: the number read, how many
    digits, and what follows. [None] when there is no digit. *)
Fixpoint more_digits (l : list ascii) (acc : Z) (n : Z) : Z * Z * list ascii :=
  match l with
  | c :: l' =>
      match digit_of c with
      | Some d => more_digits l' (10 * acc + d) (n + 1)
      | None =>
          if Ascii.eqb c "_"%char then
            match l' with
            | c' :: l'' =>
                match digit_of c' with
                | Some d => more_digits l'' (10 * acc + d) (n + 1)
                | None => (acc, n, l)
                end
            | [] => (acc, n, l)
            end
          else (acc, n, l)
      end
  | [] => (acc, n, l)
  end.

Definition digits (l : list ascii) (acc : Z) : option (Z * Z * list ascii) :=
  match l with
  | c :: l' =>
      match digit_of c with
      | Some d => Some (more_digits l' (10 * acc + d) 1)
      | None => None
      end
  | [] => None
  end.

Definition sign_of (l : list ascii) : bool * list ascii :=
  match l with
  | "-"%char :: l' => (true, l')
  | "+"%char :: l' => (false, l')
  | _ => (false, l)
  end.

(** The exponent part, if there is one; nothing may follow it. *)
Definition exponent (l : list ascii) : option Z :=
  match l with
  | [] => Some 0
  | c :: l' =>
      if (Ascii.eqb c "e" || Ascii.eqb c "E")%bool then
        let (neg, l'') := sign_of l' in
        match digits l'' 0 with
        | Some (x, _, []) => Some (if neg then - x else x)
        | _ => None
        end
      else None
  end.

(** Mantissa and decimal exponent of an unsigned decimal literal. *)
Definition unsigned_decimal (l : list ascii) : option (Z * Z) :=
  match digits l 0 with
  | Some (i, _, "."%char :: l') =>
      match digits l' i with
      | Some (m, f, l'') => option_map (fun x => (m, x - f)) (exponent l'')
      | None => option_map (fun x => (i, x)) (exponent l')
      end
  | Some (i, _, l') => option_map (fun x => (i, x)) (exponent l')
  | None =>
      match l with
      | "."%char :: l' =>
          match digits l' 0 with
          | Some (m, f, l'') => option_map (fun x => (m, x - f)) (exponent l'')
          | None => None
          end
      | _ => None
      end
  end.

(** [float(s)] for a [str] of code points below U+0100. *)
Definition reference_float_of_str (s : string) : option float :=
  let (neg, body) := sign_of (list_ascii_of_string (strip s)) in
  let signed (x : float) := if neg then (- x)%float else x in
  let word := lower (string_of_list_ascii body) in
  if (String.eqb word "inf" || String.eqb word "infinity")%bool then Some (signed infinity)
  else if String.eqb word "nan" then Some (signed nan)
  else option_map (fun me => signed (decimal_float (fst me) (snd me))) (unsigned_decimal body).


(** The greatest [t] with [10 ^ t <= n / d], for [n, d > 0]. *)
Fixpoint log10_down (fuel : nat) (n d t : Z) : Z :=
  match fuel with
  | O => t
  | S fuel' =>
      if 0 <=? t then
        if d * 10 ^ (t + 1) <=? n then log10_down fuel' n d (t + 1)
        else if n <? d * 10 ^ t then log10_down fuel' n d (t - 1)
        else t
      else
        if d <=? n * 10 ^ (- t - 1) then log10_down fuel' n d (t + 1)
        else if n * 10 ^ (- t) <? d then log10_down fuel' n d (t - 1)
        else t
  end.

(** [n / d] scaled by [10 ^ (- k)], as a fraction. *)
Definition scaled (n d k : Z) : Z * Z :=
  if 0 <=? k then (n, d * 10 ^ k) else (n * 10 ^ (- k), d).

(** The shortest decimal [D * 10 ^ k] that reads back as [x = n / d]: the
    first precision at which a neighbour of [x] does, the nearer one when
    both do. *)
Fixpoint shortest (steps : nat) (p : Z) (x : float) (n d t : Z) : Z * Z :=
  let k := t - p + 1 in
  let (sn, sd) := scaled n d k in
  let lo := sn / sd in
  let hi := lo + 1 in
  let back D := (decimal_float D k =? x)%float in
  match steps with
  | O => (lo, k)
  | S steps' =>
      if back lo then
        if (back hi && (sd <? 2 * (sn - lo * sd)))%bool then (hi, k) else (lo, k)
      else if back hi then (hi, k)
      else shortest steps' (p + 1) x n d t
  end.

Fixpoint strip_zeros (fuel : nat) (D k : Z) : Z * Z :=
  match fuel with
  | O => (D, k)
  | S fuel' => if (D mod 10 =? 0) && negb (D =? 0) then strip_zeros fuel' (D / 10) (k + 1) else (D, k)
  end%bool.

Definition zeros (n : Z) : string := string_of_list_ascii (repeat "0"%char (Z.to_nat n)).

Definition two_digits (x : Z) : string := if x <? 10 then "0" ++ int_str x else int_str x.

(** The digits and the position of the point, as [repr] lays them out. *)
Definition layout (ds : string) (decpt : Z) : string :=
  let n := Z.of_nat (String.length ds) in
  if ((decpt <=? -4) || (16 <? decpt))%bool then
    let x := decpt - 1 in
    substring 0 1 ds
    ++ (if 1 <? n then "." ++ substring 1 (Z.to_nat (n - 1)) ds else "")
    ++ "e" ++ (if x <? 0 then "-" else "+") ++ two_digits (Z.abs x)
  else if decpt <=? 0 then "0." ++ zeros (- decpt) ++ ds
  else if n <=? decpt then ds ++ zeros (decpt - n) ++ ".0"
  else substring 0 (Z.to_nat decpt) ds ++ "." ++ substring (Z.to_nat decpt) (Z.to_nat (n - decpt)) ds.

(** [repr(x)] for a [float] *)
Definition reference_float_repr (x : float) : string :=
  match Prim2SF x with
  | SpecFloat.S754_nan => "nan"
  | SpecFloat.S754_infinity s => if s then "-inf" else "inf"
  | SpecFloat.S754_zero s => if s then "-0.0" else "0.0"
  | SpecFloat.S754_finite s m e =>
      let n := if 0 <=? e then Zpos m * 2 ^ e else Zpos m in
      let d := if 0 <=? e then 1 else 2 ^ (- e) in
      let t := log10_down 700 n d 0 in
      let (D, k) := shortest 17 1 (abs x) n d t in
      let (D, k) := strip_zeros 20 D k in
      let ds := int_str D in
      (if s then "-" else "") ++ layout ds (Z.of_nat (String.length ds) + k)
  end.

End PyReference.

(* ================================================================= *)
(** ** Vocabulary of the properties *)

Import Py PyText Json Helpers Effects Provenance MettaShim.

(** The number of constructors of a value. *)
Fixpoint size (v : PyVal) : nat :=
  match v with
  | VList l => S (fold_right (fun x n => (size x + n)%nat) O l)
  | VDict d => S (fold_right (fun kv n => (match kv with (_, x) => size x end + n)%nat) O d)
  | _ => 1%nat
  end.

Section Vocabulary.
Context `{PyBuiltins} `{Config}.

(** The node a rule adds to the reason tree on an input, if it adds one:
    nothing when it raises, nothing when its outcome is [None]. *)
Definition contribution (investor asset : Dict) (r : Rule) : option ReasonNode :=
  match rule_fn r investor asset with
  | Raise _ => None
  | Ok res =>
      match r_outcome res with
      | None => None
      | Some o => Some (node_of r res o)
      end
  end.



(** The aggregation alone: the loop of [evaluate_asset] over the nodes. *)
Fixpoint aggregate (nodes : list ReasonNode) (st : LoopState) : LoopState :=
  match nodes with
  | [] => st
  | n :: rest =>
      let (st', stop) := apply_node n st in
      if stop then st' else aggregate rest st'
  end.

(** The part of the loop state the decision is made of. *)
Definition core (st : LoopState) : list ReasonNode * option Outcome * float :=
  (st_reason_tree st, st_final_decision st, st_final_confidence st).

Definition nodes_of (investor asset : Dict) (rules : list Rule) : list ReasonNode :=
  flat_map (fun r => match contribution investor asset r with
                     | Some n => [n]
                     | None => []
                     end) rules.

(** The greatest confidence among the nodes of one outcome ([0.0] when
    there is none), with Python's [max]. *)
Definition max_confidence (o : Outcome) (tree : list ReasonNode) : float :=
  fold_left (fun m n => if outcome_eqb (n_outcome n) o then py_max m (n_confidence n) else m)
            tree 0.0%float.

(** Rule name, outcome and confidence of each node. *)
Definition signature (tree : list ReasonNode) : list (string * Outcome * float) :=
  map (fun n => (n_rule n, n_outcome n, n_confidence n)) tree.

(** The eight ends of an evaluation: decision, confidence, and the reason
    tree by rule name, outcome and confidence. *)
Definition ends : list (Outcome * float * list (string * Outcome * float)) :=
  [(reject, 0.95, [("exclude_by_industry", reject, 0.95)]);
   (reject, 0.9, [("exclude_by_carbon", reject, 0.9)]);
   (accept, 0.8, [("recent_large_drop", deprioritize, 0.7);
                  ("accept_by_return_and_risk", accept, 0.8)]);
   (accept, 0.8, [("accept_by_return_and_risk", accept, 0.8)]);
   (deprioritize, 0.7, [("recent_large_drop", deprioritize, 0.7);
                        ("deprioritize_by_return_or_risk", deprioritize, 0.6)]);
   (deprioritize, 0.7, [("recent_large_drop", deprioritize, 0.7)]);
   (deprioritize, 0.6, [("deprioritize_by_return_or_risk", deprioritize, 0.6)]);
   (deprioritize, 0.2, [("default_deprioritize", deprioritize, 0.2)])]%float.

Definition end_of (x : Outcome * float * list ReasonNode)
  : Outcome * float * list (string * Outcome * float) :=
  let '(d, c, tree) := x in (d, c, signature tree).

(** The running maximum of all the confidences, from [m0] and from the
    [0.0] the loop starts with. *)
Definition running_max_from (m0 : float) (tree : list ReasonNode) : float :=
  fold_left (fun m n => py_max m (n_confidence n)) tree m0.

Definition running_max (tree : list ReasonNode) : float := running_max_from 0.0%float tree.

(** A hexadecimal digit in lower case. *)
Definition is_hex_char (c : ascii) : bool := (in_range 48 57 c || in_range 97 102 c)%bool.

(** The keys that are read through [or]; each is followed by a fallback. *)
Definition fallback_keys : list string := ["carbon_emissions"; "volatility"; "beta"].

(** What [evaluate_asset] returns, and the loop's last state. *)
Definition decision_of (investor asset : Dict) (record_provenance : bool) (w : World)
  : Decision := fst (evaluate_asset investor asset record_provenance w).

Definition symbol_of (asset : Dict) : PyVal :=
  py_or (py_or (get "symbol" asset) (get "id" asset)) (VStr "UNKNOWN").

Definition loop_of (rules : list Rule) (investor asset : Dict) : LoopState :=
  run_rules investor asset (symbol_of asset) rules loop_init.

(** The decision, confidence and reason tree read off a loop state, with
    the default of [evaluate_asset] when no rule fired. *)
Definition concluded (st : LoopState) : Outcome * float * list ReasonNode :=
  match st_final_decision st with
  | None => (deprioritize, 0.2%float, (st_reason_tree st ++ [default_node])%list)
  | Some d => (d, st_final_confidence st, st_reason_tree st)
  end.




(** The name of the file and its path, as [record_provenance_blob] builds
    them from the snapshot and the reading of the clock. *)
Definition receipt_path (raw : Dict) (ts : Z) : string :=
  path_join PROVENANCE_DIR
    (py_str (py_or (get "symbol" raw) (get "id" raw)) ++ "_" ++ int_str ts ++ ".json").

End Vocabulary.

(** Builtins and configuration for the examples: the reference builtins,
    and the default directory. *)
Definition example_builtins : PyBuiltins :=
  {| float_of_str := PyReference.reference_float_of_str;
     float_repr := PyReference.reference_float_repr |}.

Definition example_config : Config := {| PROVENANCE_DIR := "./provenance_logs" |}.

Definition example_world (writable : bool) : World :=
  mkWorld (fun _ => 1700000000) 0 [] (fun _ => writable) [].

(* ================================================================= *)
(** ** Vocabulary of the properties of the client and of the market *)

Import MettaClient Market.

(** The fields of the asset and of the investor that the rules read. *)
Definition asset_fields : list string :=
  ["sector"; "carbon_emissions"; "carbon_score"; "percent_change";
   "expected_return"; "volatility"; "beta"; "stddev"].

Definition investor_fields : list string :=
  ["excluded_industries"; "max_carbon_score"; "risk_tolerance"].

(** The rows of the table of thresholds. *)
Definition risk_levels : list string := ["low"; "medium"; "high"].

(** The atom that [_store_atom] keeps for [atom], with its id and the
    reading of the clock. *)
Definition stored_atom (atom : Dict) (atom_id : string) (ts : Z) : PyVal :=
  VDict (set_item "_ts" (VInt ts) (set_item "_id" (VStr atom_id) atom)).

(** The ids drawn from the [n]-th value of [uuid4().hex]. *)
Definition atom_id_of (c : Client) (n : nat) : string :=
  "atom_" ++ substring 0 12 (c_uuid c (c_drawn c + n)).

Definition decision_id_of (c : Client) (n : nat) : string :=
  "decision_" ++ substring 0 10 (c_uuid c (c_drawn c + n)).

(** Asset, decision, score and confidence of a Decision dictionary. *)
Definition verdict (decision : Dict) : PyVal * PyVal * PyVal * PyVal :=
  (get "asset" decision, get "decision" decision, get "score" decision,
   get "confidence" decision).

Section Vocabulary2.
Context `{PyBuiltins}.

(** The verdict that [evaluate_asset] reaches for an investor and an asset. *)
Definition expected_verdict (investor asset : Dict) : PyVal * PyVal * PyVal * PyVal :=
  let '(d, c, _) := concluded (loop_of RULES investor asset) in
  (symbol_of asset, VStr (outcome_str d), VFloat (mapping d * c), VFloat c).

End Vocabulary2.

(** The atoms that the client keeps for an investor and for an asset,
    before their id and timestamp. *)
Definition investor_atom (profile : Dict) : Dict :=
  [("type", VStr "Investor"); ("profile", VDict profile)].

Definition asset_atom (asset : Dict) : Dict :=
  [("type", VStr "Asset"); ("asset", VDict asset)].

(** The three ids that [evaluate_asset_for_investor] attaches. *)
Definition enriched (decision : Dict) (iid aid did : string) : Dict :=
  set_item "_decision_id" (VStr did)
    (set_item "_asset_atom" (VStr aid)
       (set_item "_investor_atom" (VStr iid) decision)).

(** The world after [n] more readings of the clock. *)
Definition later (w : World) (n : nat) : World :=
  mkWorld (w_clock w) (n + w_reads w) (w_files w) (w_writable w) (w_log w).

Section Vocabulary3.
Context `{ExnText}.

(** The Decision that the client makes up when the shim raises. *)
Definition fallback_decision (asset : Dict) (e : PyExn) (now : Z) : Dict :=
  [("asset", get "symbol" asset);
   ("decision", VStr "deprioritize");
   ("score", VFloat 0.0);
   ("reason_tree", VList [VDict [("rule", VStr "metta_error");
                                 ("note", VStr (exn_str e))]]);
   ("confidence", VFloat 0.0);
   ("provenance", VNone);
   ("timestamp", VInt now)].

(** The Decision of the client before the ids are attached, from what the
    shim returned and the world it left. *)
Definition answered (asset : Dict) (out : Exn Decision * World) : Dict :=
  match fst out with
  | Ok d => decision_dict d
  | Raise e => fallback_decision asset e (w_clock (snd out) (w_reads (snd out)))
  end.

End Vocabulary3.

(** The world with [n] more records in its log. *)
Definition logged (w : World) (rs : list LogRecord) : World :=
  mkWorld (w_clock w) (w_reads w) (w_files w) (w_writable w) (w_log w ++ rs)%list.

(** A candidate is a dictionary whose symbol is one of the symbols asked. *)
Definition candidate_of (symbols : list string) (c : PyVal) : Prop :=
  exists d s, c = VDict d /\ In s symbols /\ lookup "symbol" d = Some (VStr s).

(** For the examples: the name of the exception as its text; a network
    that answers the quote and the profile and has no ESG data; a client
    with an empty store. *)
Definition example_exn_text : ExnText :=
  {| exn_str := fun e => match e with
                         | TypeError => "TypeError"
                         | ValueError => "ValueError"
                         | AttributeError => "AttributeError"
                         | OverflowError => "OverflowError"
                         | OSError => "OSError"
                         end |}.

Definition example_network : Network :=
  {| FINNHUB_API_KEY := VStr "token";
     finnhub_get := fun endpoint symbol =>
       ret (if String.eqb endpoint "quote" then
              NetOk (VDict [("c", VFloat 189.5); ("d", VFloat (-12.5));
                            ("dp", VFloat (-6.2)); ("pc", VInt 202)])
            else if String.eqb endpoint "stock/profile2" then
              NetOk (VDict [("finnhubIndustry", VStr "Technology");
                            ("name", VStr "Apple Inc")])
            else NetRaise HTTPError);
     cg_get_price := fun id =>
       ret (Ok (VDict [(id, VDict [("usd", VInt 60000); ("usd_24h_change", VFloat (-7.5))])]));
     yahoo_fetch := fun _ => ret VNone |}.

(** The same network with no key. *)
Definition example_network_without_key : Network :=
  {| FINNHUB_API_KEY := VNone;
     finnhub_get := @finnhub_get example_network;
     cg_get_price := @cg_get_price example_network;
     yahoo_fetch := @yahoo_fetch example_network |}.

(** A shim that raises [ValueError]. *)
Definition failing_shim (investor asset : Dict) (rp : bool) : M (Exn Decision) :=
  fun w => (Raise ValueError, w).

(** The records of the log for a source that is not known, and for a key
    that is not set. *)
Definition unsupported (source : string) : LogRecord :=
  mkLog ERROR ("Unsupported market data source requested: " ++ source) None.

Definition key_not_set : LogRecord :=
  mkLog ERROR "FINNHUB_API_KEY is not set in environment" None.

(** The symbols that [get_candidates] goes through. *)
Definition symbols_asked (symbols : option (list string)) : list string :=
  match symbols with
  | Some (s :: l) => s :: l
  | _ => DEFAULT_SYMBOLS
  end.

(** The candidates are picked from the symbols in their order: each one is
    a dictionary that holds the symbol it was asked for. *)
Inductive picked_from : list PyVal -> list string -> Prop :=
| picked_none : picked_from [] []
| picked_skip s l cs : picked_from cs l -> picked_from cs (s :: l)
| picked_take s l d cs :
    lookup "symbol" d = Some (VStr s) ->
    picked_from cs l -> picked_from (VDict d :: cs) (s :: l).

(** One value is the other with its keys in another order, at any depth:
    the items of a dictionary are permuted, and the values of a dictionary
    and the items of a list are reordered in turn. *)
Inductive reordered : PyVal -> PyVal -> Prop :=
| reordered_same v : reordered v v
| reordered_list l l' : reordered_each l l' -> reordered (VList l) (VList l')
| reordered_dict d d1 d' :
    reordered_items d d1 -> wf_dict d1 -> Permutation d1 d' ->
    reordered (VDict d) (VDict d')
with reordered_each : list PyVal -> list PyVal -> Prop :=
| each_none : reordered_each [] []
| each_more v v' l l' :
    reordered v v' -> reordered_each l l' -> reordered_each (v :: l) (v' :: l')
with reordered_items : Dict -> Dict -> Prop :=
| items_none : reordered_items [] []
| items_more k v v' d d' :
    reordered v v' -> reordered_items d d' ->
    reordered_items ((k, v) :: d) ((k, v') :: d').

Scheme reordered_mut := Minimality for reordered Sort Prop
  with reordered_each_mut := Minimality for reordered_each Sort Prop
  with reordered_items_mut := Minimality for reordered_items Sort Prop.

(** The ids that the [i]-th evaluation of a batch draws, and those of the
    first [n] evaluations. *)
Definition ids_of_evaluation (c : Client) (i : nat) : list string :=
  [atom_id_of c (3 * i); atom_id_of c (3 * i + 1); decision_id_of c (3 * i + 2)].

Definition ids_of_batch (c : Client) (n : nat) : list string :=
  flat_map (ids_of_evaluation c) (seq 0 n).

(** The fields of a Finnhub asset that the rules read. *)
Definition finnhub_evidence (quote profile esg : PyVal) : Dict :=
  [("sector", safe_get profile "finnhubIndustry");
   ("percent_change", safe_get quote "dp");
   ("carbon_emissions", safe_get esg "carbonEmissions")].

Definition example_uuid (n : nat) : string :=
  substring 0 32 (int_str (Z.of_nat n) ++ "0123456789abcdef0123456789abcdef").

Definition example_client : Client :=
  mkClient (example_world true) [] example_uuid 0 [].

(* ================================================================= *)
(** ** Properties *)

Ltac break_match :=
  match goal with
  | |- context [match ?x with _ => _ end] => destruct x eqn:?
  end.

(** The reference builtins on a few inputs, as CPython answers. *)
Example reference_repr_examples :
  map PyReference.reference_float_repr
      [0.1; 0.35; 50; -0.08; 1e16; 1e-5; 123456789.123; 5e-324; 0.30000000000000004]%float
  = ["0.1"; "0.35"; "50.0"; "-0.08"; "1e+16"; "1e-05"; "123456789.123"; "5e-324";
     "0.30000000000000004"].
Proof. vm_compute. reflexivity. Qed.

Example reference_float_examples :
  map PyReference.reference_float_of_str
      ["1.5"; " -8 "; "1e-5"; ".5"; "1_000.5"; "Infinity"; "abc"; "1__0"; "0x10"; "12 %"]
  = [Some 1.5; Some (-8); Some 1e-5; Some 0.5; Some 1000.5; Some infinity;
     None; None; None; None]%float.
Proof. vm_compute. reflexivity. Qed.

Section Evaluation.
Context `{PyBuiltins} `{Config}.

Lemma evaluate_with_concluded rules investor asset rp w :
  let d := fst (evaluate_with rules investor asset rp w) in
  (d_decision d, d_confidence d, d_reason_tree d) = concluded (loop_of rules investor asset)
  /\ d_score d = (mapping (d_decision d) * d_confidence d)%float
  /\ d_asset d = symbol_of asset.
Proof.
  unfold evaluate_with, loop_of, concluded, symbol_of, bind, ret; simpl.
  repeat (break_match; simpl); auto.
Qed.

(** *** The loop and the aggregation *)

Lemma apply_node_core n st st' :
  core st = core st' ->
  core (fst (apply_node n st)) = core (fst (apply_node n st'))
  /\ snd (apply_node n st) = snd (apply_node n st').
Proof.
  unfold core, apply_node; intros E; injection E as Et Ed Ec.
  rewrite Et, Ed, Ec.
  destruct (n_outcome n); [destruct (st_final_decision st') as [[]|] | | destruct (st_final_decision st') as [[]|]];
    simpl; auto.
Qed.

Lemma step_contribution investor asset symbol r st :
  match contribution investor asset r with
  | Some n => core (fst (step investor asset symbol r st)) = core (fst (apply_node n st))
              /\ snd (step investor asset symbol r st) = snd (apply_node n st)
  | None => core (fst (step investor asset symbol r st)) = core st
            /\ snd (step investor asset symbol r st) = false
  end.
Proof.
  unfold contribution, step.
  destruct (rule_fn r investor asset) as [res|e]; simpl; auto.
  destruct (r_outcome res) as [o|]; simpl; auto.
  apply apply_node_core; reflexivity.
Qed.

Lemma aggregate_core nodes : forall st st',
  core st = core st' -> core (aggregate nodes st) = core (aggregate nodes st').
Proof.
  induction nodes as [|n nodes IH]; intros st st' E; simpl; auto.
  destruct (apply_node_core n st st' E) as [Ec Es].
  destruct (apply_node n st) as [s1 b1], (apply_node n st') as [s2 b2]; simpl in *.
  subst b2; destruct b1; auto.
Qed.

(** The decision of the loop is the aggregation of the nodes the rules
    contribute, in the order of the rules. *)
Lemma run_rules_aggregate investor asset symbol rules : forall st,
  core (run_rules investor asset symbol rules st)
  = core (aggregate (nodes_of investor asset rules) st).
Proof.
  induction rules as [|r rules IH]; intros st; simpl; auto.
  pose proof (step_contribution investor asset symbol r st) as S.
  unfold nodes_of in *; simpl.
  destruct (contribution investor asset r) as [n|]; simpl.
  - destruct S as [Ec Es].
    destruct (step investor asset symbol r st) as [s1 b1], (apply_node n st) as [s2 b2];
      simpl in *; subst b2.
    destruct b1; auto.
    rewrite IH. apply aggregate_core; exact Ec.
  - destruct S as [Ec Es].
    destruct (step investor asset symbol r st) as [s1 b1]; simpl in *; subst b1.
    rewrite IH. apply aggregate_core; exact Ec.
Qed.

Lemma loop_of_aggregate rules investor asset :
  core (loop_of rules investor asset)
  = core (aggregate (nodes_of investor asset rules) loop_init).
Proof. apply run_rules_aggregate. Qed.

Lemma concluded_core st st' : core st = core st' -> concluded st = concluded st'.
Proof.
  unfold core, concluded; intros E; injection E as Et Ed Ec; rewrite Et, Ed, Ec; reflexivity.
Qed.

(** *** What each rule can contribute *)

(** The scrutinee holds no other [match]. *)
Ltac innermost x :=
  lazymatch x with
  | context [match _ with _ => _ end] => fail
  | _ => idtac
  end.

Ltac break_inner :=
  match goal with
  | |- context [match ?x with _ => _ end] => innermost x; destruct x eqn:?
  end.

Ltac rule_cases :=
  repeat (simpl; break_inner); simpl in *; try discriminate;
  repeat match goal with
         | E : Ok _ = Ok _ |- _ => injection E as E; subst
         | E : Some _ = Some _ |- _ => injection E as E; subst
         end;
  simpl; eauto.

Lemma contribution_industry investor asset :
  let c := contribution investor asset (mkRule "_rule_exclude_industry" _rule_exclude_industry) in
  c = None \/ exists ev note, c = Some (mkNode "exclude_by_industry" reject ev note 0.95%float).
Proof.
  unfold contribution, _rule_exclude_industry, node_of, ebind; rule_cases.
Qed.

Lemma contribution_carbon investor asset :
  let c := contribution investor asset (mkRule "_rule_exclude_by_carbon" _rule_exclude_by_carbon) in
  c = None \/ exists ev note, c = Some (mkNode "exclude_by_carbon" reject ev note 0.9%float).
Proof.
  unfold contribution, _rule_exclude_by_carbon, node_of, ebind; rule_cases.
Qed.

Lemma contribution_drop investor asset :
  let c := contribution investor asset (mkRule "_rule_recent_large_drop" _rule_recent_large_drop) in
  c = None \/ exists ev note, c = Some (mkNode "recent_large_drop" deprioritize ev note 0.7%float).
Proof.
  unfold contribution, _rule_recent_large_drop, node_of; rule_cases.
Qed.

Lemma contribution_return investor asset :
  let c := contribution investor asset (mkRule "_rule_return_and_risk" _rule_return_and_risk) in
  c = None
  \/ (exists ev note, c = Some (mkNode "accept_by_return_and_risk" accept ev note 0.8%float))
  \/ (exists ev note,
        c = Some (mkNode "deprioritize_by_return_or_risk" deprioritize ev note 0.6%float)).
Proof.
  unfold contribution, _rule_return_and_risk, node_of, ebind; rule_cases.
Qed.

(** *** The eight ends *)

Ltac pick_end := simpl; repeat (first [left; reflexivity | right]); fail.

(** Whatever the investor and the asset, [evaluate_asset] ends in one of
    eight ways. *)
Lemma evaluation_ends investor asset :
  In (end_of (concluded (loop_of RULES investor asset))) ends.
Proof.
  rewrite (concluded_core _ _ (loop_of_aggregate RULES investor asset)).
  unfold nodes_of, RULES; simpl flat_map.
  destruct (contribution_industry investor asset) as [E1|(ev1 & nt1 & E1)];
    destruct (contribution_carbon investor asset) as [E2|(ev2 & nt2 & E2)];
    destruct (contribution_drop investor asset) as [E3|(ev3 & nt3 & E3)];
    destruct (contribution_return investor asset)
      as [E4|[(ev4 & nt4 & E4)|(ev4 & nt4 & E4)]];
    cbv zeta in E1, E2, E3, E4; rewrite E1, E2, E3, E4;
    vm_compute; pick_end.
Qed.

Lemma decision_of_concluded investor asset rp w :
  let d := decision_of investor asset rp w in
  (d_decision d, d_confidence d, d_reason_tree d) = concluded (loop_of RULES investor asset)
  /\ d_score d = (mapping (d_decision d) * d_confidence d)%float.
Proof.
  destruct (evaluate_with_concluded RULES investor asset rp w) as (E & S & _).
  split; assumption.
Qed.

Lemma decision_of_end investor asset rp w :
  let d := decision_of investor asset rp w in
  In (d_decision d, d_confidence d, signature (d_reason_tree d)) ends.
Proof.
  destruct (decision_of_concluded investor asset rp w) as [E _].
  pose proof (evaluation_ends investor asset) as I.
  cbv zeta in *. rewrite <- E in I. exact I.
Qed.

(** *** The score *)

(** C3. For every Decision returned by [evaluate_asset], the score is the
    entry of the decision in [{accept: 1.0, deprioritize: 0.5, reject: 0.0}]
    multiplied by the final confidence. It depends on nothing else: two
    evaluations that agree on decision and confidence agree on the score,
    and the triple (decision, confidence, score) is one of six. *)
Theorem C3_score_formula investor asset rp w :
  let d := decision_of investor asset rp w in
  d_score d = ((match d_decision d with
                | accept => 1.0
                | deprioritize => 0.5
                | reject => 0.0
                end) * d_confidence d)%float
  /\ (forall investor' asset' rp' w',
        let d' := decision_of investor' asset' rp' w' in
        d_decision d' = d_decision d -> d_confidence d' = d_confidence d ->
        d_score d' = d_score d)
  /\ In (d_decision d, d_confidence d, d_score d)
        [(reject, 0.95, 0.0); (reject, 0.9, 0.0); (accept, 0.8, 0.8);
         (deprioritize, 0.7, 0.35); (deprioritize, 0.6, 0.3);
         (deprioritize, 0.2, 0.1)]%float.
Proof.
  cbv zeta.
  destruct (decision_of_concluded investor asset rp w) as [_ S].
  cbv zeta in S. split; [|split].
  - rewrite S. unfold mapping. destruct (d_decision _); reflexivity.
  - intros investor' asset' rp' w' Ed Ec.
    destruct (decision_of_concluded investor' asset' rp' w') as [_ S'].
    cbv zeta in S'. rewrite S, S', Ed, Ec. reflexivity.
  - pose proof (decision_of_end investor asset rp w) as I. cbv zeta in I.
    rewrite S.
    unfold ends in I; simpl in I.
    repeat (destruct I as [I|I]; [injection I as Ed Ec _; rewrite <- Ed, <- Ec; vm_compute; pick_end|]).
    destruct I.
Qed.

(** *** No rule fires *)

Lemma nodes_of_silent investor asset rules :
  (forall r, In r rules -> contribution investor asset r = None) ->
  nodes_of investor asset rules = [].
Proof.
  unfold nodes_of. induction rules as [|r rules IH]; intros N; simpl; auto.
  rewrite (N r (or_introl eq_refl)). simpl. apply IH.
  intros r' I. apply N. right. exact I.
Qed.

(** C4. On every input on which none of the four rules produces an outcome
    (each raises or returns the outcome [None]), [evaluate_asset] returns
    deprioritize with confidence 0.2 and score 0.1, and the reason tree is
    the one synthetic node [default_deprioritize]. *)
Theorem C4_default_when_no_rule_fires investor asset rp w :
  (forall r, In r RULES -> contribution investor asset r = None) ->
  let d := decision_of investor asset rp w in
  d_decision d = deprioritize
  /\ d_confidence d = 0.2%float
  /\ d_score d = 0.1%float
  /\ d_reason_tree d
     = [mkNode "default_deprioritize" deprioritize VNone
               (VStr "No rules strongly matched; default deprioritize") 0.2%float].
Proof.
  intros N. cbv zeta.
  destruct (decision_of_concluded investor asset rp w) as [E S]. cbv zeta in E, S.
  rewrite (concluded_core _ _ (loop_of_aggregate RULES investor asset)) in E.
  rewrite (nodes_of_silent _ _ _ N) in E. simpl in E.
  injection E as Ed Ec Et. rewrite S, Ed, Ec, Et. repeat split; reflexivity.
Qed.

(** *** Scenario B *)

(** C6. For the investor [{risk_tolerance: "low"}] and the asset
    [{symbol: "ABC", percent_change: -8}], [evaluate_asset] returns
    deprioritize with confidence 0.7 and score 0.35. The reason tree is the
    recent-large-drop node (0.7) followed by the return-and-risk
    deprioritize node (0.6), whose expected return is the derived
    [max(-8/100, 0) = 0.0], below the minimum 0.03 of the low row. *)
Theorem C6_scenario_B rp w :
  let d := decision_of [("risk_tolerance", VStr "low")]
                       [("symbol", VStr "ABC"); ("percent_change", VInt (-8))] rp w in
  d_decision d = deprioritize
  /\ d_confidence d = 0.7%float
  /\ d_score d = 0.35%float
  /\ d_reason_tree d
     = [mkNode "recent_large_drop" deprioritize
               (VDict [("percent_change", VInt (-8))])
               (VStr "Asset dropped more than 5% recently") 0.7%float;
        mkNode "deprioritize_by_return_or_risk" deprioritize
               (VDict [("expected_return", VFloat 0.0); ("volatility", VNone);
                       ("thresholds", VDict [("max_volatility", VFloat 0.15);
                                             ("min_return", VFloat 0.03)])])
               (VStr "Fails return / volatility requirements") 0.6%float]
  /\ py_max (-8 / 100.0) 0.0 = 0.0%float
  /\ (0.0 <? 0.03)%float = true
  /\ py_max (py_max 0.0 0.7) 0.6 = 0.7%float.
Proof.
  cbv zeta.
  destruct (decision_of_concluded [("risk_tolerance", VStr "low")]
              [("symbol", VStr "ABC"); ("percent_change", VInt (-8))] rp w) as [E S].
  cbv zeta in E, S.
  assert (C : concluded (loop_of RULES [("risk_tolerance", VStr "low")]
                           [("symbol", VStr "ABC"); ("percent_change", VInt (-8))])
              = (deprioritize, 0.7%float,
                 [mkNode "recent_large_drop" deprioritize
                    (VDict [("percent_change", VInt (-8))])
                    (VStr "Asset dropped more than 5% recently") 0.7%float;
                  mkNode "deprioritize_by_return_or_risk" deprioritize
                    (VDict [("expected_return", VFloat 0.0); ("volatility", VNone);
                            ("thresholds", VDict [("max_volatility", VFloat 0.15);
                                                  ("min_return", VFloat 0.03)])])
                    (VStr "Fails return / volatility requirements") 0.6%float]))
    by (vm_compute; reflexivity).
  rewrite C in E. injection E as Ed Ec Et.
  rewrite S, Ed, Ec, Et. repeat split; reflexivity.
Qed.

End Evaluation.

(** C4, on an asset that has only its symbol. *)
Lemma C4_default_when_no_rule_fires_witness :
  let investor : Dict := [] in
  let asset : Dict := [("symbol", VStr "XYZ")] in
  let d := @decision_of example_builtins example_config investor asset false
                        (example_world true) in
  (forall r, In r (@RULES example_builtins) -> @contribution investor asset r = None)
  /\ d_decision d = deprioritize /\ d_confidence d = 0.2%float /\ d_score d = 0.1%float.
Proof.
  cbv zeta.
  assert (N : forall r, In r (@RULES example_builtins)
                        -> @contribution [] [("symbol", VStr "XYZ")] r = None).
  { intros r [<-|[<-|[<-|[<-|[]]]]]; reflexivity. }
  split; [exact N|].
  destruct (@C4_default_when_no_rule_fires example_builtins example_config
              [] [("symbol", VStr "XYZ")] false (example_world true) N) as (A & B & C & _).
  auto.
Defined.

(* ----------------------------------------------------------------- *)
(** *** Exclusion by industry *)

Section Industry.
Context `{PyBuiltins} `{Config}.

Lemma normalised_strings names :
  normalised (map VStr names) = Ok (map (fun n => lower (strip n)) names).
Proof.
  induction names as [|n names IH]; simpl; auto.
  rewrite IH. reflexivity.
Qed.

Lemma member_In x l : member x l = true <-> In x l.
Proof.
  unfold member. rewrite existsb_exists. split.
  - intros (y & I & E). apply String.eqb_eq in E. subst. exact I.
  - intros I. exists x. split; auto. apply String.eqb_refl.
Qed.

(** The rule on a list of names and a sector that is a string: it compares
    the sector in lower case, not stripped, with the names stripped and in
    lower case. *)
Lemma exclude_industry_strings investor asset sector name names :
  py_or (get "excluded_industries" investor) (VList []) = VList (map VStr (name :: names)) ->
  py_or (get_default "sector" (VStr "") asset) (VStr "") = VStr sector ->
  _rule_exclude_industry investor asset
  = if member (lower sector) (map (fun n => lower (strip n)) (name :: names))
    then Ok (mkResult (Some reject) (Some "exclude_by_industry")
               (VDict [("sector", VStr sector);
                       ("excluded", VList (map VStr (name :: names)))])
               (Some 0.95%float)
               (VStr ("Asset sector '" ++ sector
                      ++ "' matches investor excluded industries")))
    else Ok no_outcome.
Proof.
  intros Ee Es. unfold _rule_exclude_industry. rewrite Ee, Es.
  simpl. rewrite (normalised_strings names). reflexivity.
Qed.

(** What holds of the claim C1: when the sector, in lower case, is one of
    the excluded names stripped and in lower case, the decision is reject
    with confidence 0.95 and the reason tree is the node of this rule. *)
Lemma industry_match_rejects investor asset sector name names rp w :
  py_or (get "excluded_industries" investor) (VList []) = VList (map VStr (name :: names)) ->
  py_or (get_default "sector" (VStr "") asset) (VStr "") = VStr sector ->
  In (lower sector) (map (fun n => lower (strip n)) (name :: names)) ->
  let d := decision_of investor asset rp w in
  d_decision d = reject
  /\ d_confidence d = 0.95%float
  /\ signature (d_reason_tree d) = [("exclude_by_industry", reject, 0.95%float)].
Proof.
  intros Ee Es I. cbv zeta.
  destruct (decision_of_concluded investor asset rp w) as [E _]. cbv zeta in E.
  rewrite (concluded_core _ _ (loop_of_aggregate RULES investor asset)) in E.
  unfold nodes_of, RULES in E. simpl flat_map in E.
  unfold contribution at 1 in E. simpl rule_fn in E.
  rewrite (exclude_industry_strings investor asset sector name names Ee Es) in E.
  apply member_In in I. rewrite I in E.
  simpl in E. injection E as Ed Ec Et. rewrite Ed, Ec, Et. repeat split; reflexivity.
Qed.

(** C1. A sector that is an excluded entry, letter for letter, is not
    rejected when both carry a trailing blank: the entry is stripped and the
    sector is not. Here the investor of scenario A excludes ["Tobacco "] and
    the asset's sector is ["Tobacco "]; the rule gives no outcome and the
    decision is deprioritize. *)
Theorem C1_padded_sector_not_rejected rp w :
  let investor := [("risk_tolerance", VStr "medium");
                   ("excluded_industries", VList [VStr "Tobacco "])] in
  let asset := [("symbol", VStr "XYZ"); ("sector", VStr "Tobacco ");
                ("percent_change", VInt 2)] in
  let d := decision_of investor asset rp w in
  lower "Tobacco " = lower "Tobacco "
  /\ _rule_exclude_industry investor asset = Ok no_outcome
  /\ d_decision d = deprioritize
  /\ signature (d_reason_tree d)
     = [("deprioritize_by_return_or_risk", deprioritize, 0.6%float)].
Proof.
  cbv zeta.
  match goal with
  | |- context [decision_of ?i ?a rp w] =>
      destruct (decision_of_concluded i a rp w) as [E _]; cbv zeta in E;
      assert (C : end_of (concluded (loop_of RULES i a))
                  = (deprioritize, 0.6%float,
                     [("deprioritize_by_return_or_risk", deprioritize, 0.6%float)]))
        by (vm_compute; reflexivity);
      rewrite <- E in C; simpl in C; injection C as Cd Cc Ct
  end.
  repeat split; auto.
Qed.

(** C7. The sector of the asset is absent and the rule rejects: the absent
    sector is read as the empty string, and an excluded entry made of
    blanks is the empty string once stripped. *)
Theorem C7_absent_sector_rejected rp w :
  let investor := [("excluded_industries", VList [VStr "Tobacco"; VStr " "])] in
  let asset := [("symbol", VStr "XYZ")] in
  let d := decision_of investor asset rp w in
  lookup "sector" asset = None
  /\ _rule_exclude_industry investor asset
     = Ok (mkResult (Some reject) (Some "exclude_by_industry")
             (VDict [("sector", VStr "");
                     ("excluded", VList [VStr "Tobacco"; VStr " "])])
             (Some 0.95%float)
             (VStr "Asset sector '' matches investor excluded industries"))
  /\ d_decision d = reject
  /\ signature (d_reason_tree d) = [("exclude_by_industry", reject, 0.95%float)].
Proof.
  cbv zeta.
  match goal with
  | |- context [decision_of ?i ?a rp w] =>
      destruct (decision_of_concluded i a rp w) as [E _]; cbv zeta in E;
      assert (C : end_of (concluded (loop_of RULES i a))
                  = (reject, 0.95%float, [("exclude_by_industry", reject, 0.95%float)]))
        by (vm_compute; reflexivity);
      rewrite <- E in C; simpl in C; injection C as Cd Cc Ct
  end.
  repeat split; auto.
Qed.

Lemma lower_empty s : lower s = EmptyString -> s = EmptyString.
Proof. destruct s; simpl; [auto|discriminate]. Qed.

(** What holds of the claim C7: with the sector absent, the rule gives no
    outcome as long as no excluded name is empty or made of blanks. *)
Lemma absent_sector_no_outcome investor asset name names :
  lookup "sector" asset = None ->
  py_or (get "excluded_industries" investor) (VList []) = VList (map VStr (name :: names)) ->
  (forall n, In n (name :: names) -> strip n <> EmptyString) ->
  _rule_exclude_industry investor asset = Ok no_outcome.
Proof.
  intros Es Ee B.
  assert (S : py_or (get_default "sector" (VStr "") asset) (VStr "") = VStr "")
    by (unfold get_default; rewrite Es; reflexivity).
  rewrite (exclude_industry_strings investor asset "" name names Ee S).
  destruct (member (lower "") (map (fun n => lower (strip n)) (name :: names))) eqn:M; auto.
  apply member_In in M. apply in_map_iff in M. destruct M as (n & E & I).
  apply lower_empty in E. destruct (B n I E).
Qed.

(** With no excluded industry the rule gives no outcome. *)
Lemma no_exclusion_no_outcome investor asset :
  truthy (get "excluded_industries" investor) = false ->
  _rule_exclude_industry investor asset = Ok no_outcome.
Proof.
  intros T. unfold _rule_exclude_industry, py_or. rewrite T. reflexivity.
Qed.

End Industry.

(* ----------------------------------------------------------------- *)
(** *** Fields that fall back on other fields *)

Section Fallback.
Context `{PyBuiltins} `{Config}.

Lemma lookup_remove_same k d : lookup k (remove k d) = None.
Proof.
  induction d as [|[k' v] d IH]; simpl; auto.
  destruct (String.eqb k k') eqn:E; simpl; auto. rewrite E. exact IH.
Qed.

Lemma lookup_remove_other k k' d : k <> k' -> lookup k' (remove k d) = lookup k' d.
Proof.
  intros N. induction d as [|[k'' v] d IH]; simpl; auto.
  destruct (String.eqb k k'') eqn:E; simpl.
  - apply String.eqb_eq in E. subst k''.
    destruct (String.eqb k' k) eqn:E'; auto.
    apply String.eqb_eq in E'. congruence.
  - rewrite IH. reflexivity.
Qed.

Lemma get_remove_same k d : get k (remove k d) = VNone.
Proof. unfold get, get_default. rewrite lookup_remove_same. reflexivity. Qed.

Lemma get_remove_other k k' d : k <> k' -> get k' (remove k d) = get k' d.
Proof. intros N. unfold get, get_default. rewrite lookup_remove_other; auto. Qed.

Lemma get_default_remove_other k k' x d :
  k <> k' -> get_default k' x (remove k d) = get_default k' x d.
Proof. intros N. unfold get_default. rewrite lookup_remove_other; auto. Qed.

Lemma py_or_falsy a b : truthy a = false -> py_or a b = b.
Proof. unfold py_or. intros ->. reflexivity. Qed.

Lemma or_chain_middle a b c :
  truthy b = false -> py_or (py_or a b) c = py_or (py_or a VNone) c.
Proof.
  intros F. unfold py_or. destruct (truthy a) eqn:A.
  - rewrite A. reflexivity.
  - rewrite F. reflexivity.
Qed.

Lemma get_falsy k d v : lookup k d = Some v -> truthy v = false -> truthy (get k d) = false.
Proof. unfold get, get_default. intros -> T. exact T. Qed.

Ltac forget_key :=
  repeat rewrite get_remove_same;
  repeat (rewrite get_remove_other by discriminate);
  repeat (rewrite get_default_remove_other by discriminate).

(** C10. In the lookups that fall back on another field, a field that is
    present with a falsy value (0, 0.0, the empty string, False, an empty
    list) is treated as absent: every rule returns what it returns on the
    asset without that field, and so the loop ends in the same decision. The
    carbon rule with [carbon_emissions] equal to 0 reads [carbon_score]; the
    return-and-risk rule with [volatility] equal to 0 reads [beta], then
    [stddev]. *)
Theorem C10_falsy_field_is_absent investor asset k v :
  In k fallback_keys ->
  lookup k asset = Some v ->
  truthy v = false ->
  _rule_exclude_industry investor asset = _rule_exclude_industry investor (remove k asset)
  /\ _rule_exclude_by_carbon investor asset = _rule_exclude_by_carbon investor (remove k asset)
  /\ _rule_recent_large_drop investor asset = _rule_recent_large_drop investor (remove k asset)
  /\ _rule_return_and_risk investor asset = _rule_return_and_risk investor (remove k asset)
  /\ concluded (loop_of RULES investor asset)
     = concluded (loop_of RULES investor (remove k asset)).
Proof.
  intros I L T. pose proof (get_falsy k asset v L T) as F.
  assert (R1 : _rule_exclude_industry investor asset
               = _rule_exclude_industry investor (remove k asset)).
  { unfold _rule_exclude_industry.
    destruct I as [<-|[<-|[<-|[]]]]; forget_key; reflexivity. }
  assert (R2 : _rule_exclude_by_carbon investor asset
               = _rule_exclude_by_carbon investor (remove k asset)).
  { unfold _rule_exclude_by_carbon.
    destruct I as [<-|[<-|[<-|[]]]]; forget_key; try reflexivity.
    rewrite (py_or_falsy _ _ F). reflexivity. }
  assert (R3 : _rule_recent_large_drop investor asset
               = _rule_recent_large_drop investor (remove k asset)).
  { unfold _rule_recent_large_drop.
    destruct I as [<-|[<-|[<-|[]]]]; forget_key; reflexivity. }
  assert (R4 : _rule_return_and_risk investor asset
               = _rule_return_and_risk investor (remove k asset)).
  { unfold _rule_return_and_risk.
    destruct I as [<-|[<-|[<-|[]]]]; forget_key; try reflexivity.
    - rewrite (py_or_falsy (get "volatility" asset) _ F). reflexivity.
    - rewrite (or_chain_middle _ _ (get "stddev" asset) F). reflexivity. }
  repeat split; auto.
  apply concluded_core.
  rewrite !loop_of_aggregate. unfold nodes_of, RULES, contribution. simpl flat_map.
  rewrite <- R1, <- R2, <- R3, <- R4. reflexivity.
Qed.

End Fallback.

(** C10 on an asset whose [carbon_emissions] is 0 and whose [carbon_score]
    is 50, for an investor who accepts 10 at most: the rule rejects on the
    carbon score. And on an asset whose [volatility] is 0 and whose [beta]
    is 0.5: the rule reads 0.5, above the 0.30 of the medium row. *)
Lemma C10_falsy_field_is_absent_witness :
  let investor : Dict := [("max_carbon_score", VInt 10)] in
  let asset : Dict := [("symbol", VStr "XYZ"); ("carbon_emissions", VInt 0);
                       ("carbon_score", VInt 50); ("expected_return", VFloat 0.1);
                       ("volatility", VInt 0); ("beta", VFloat 0.5)] in
  (In "carbon_emissions" fallback_keys /\ lookup "carbon_emissions" asset = Some (VInt 0)
   /\ truthy (VInt 0) = false)
  /\ @_rule_exclude_by_carbon example_builtins investor asset
     = @_rule_exclude_by_carbon example_builtins investor (remove "carbon_emissions" asset)
  /\ r_outcome (try_except (@_rule_exclude_by_carbon example_builtins investor asset) no_outcome)
     = Some reject
  /\ r_evidence (try_except (@_rule_exclude_by_carbon example_builtins investor asset) no_outcome)
     = VDict [("carbon", VFloat 50); ("max_allowed", VInt 10)]
  /\ r_note (try_except (@_rule_exclude_by_carbon example_builtins investor asset) no_outcome)
     = VStr "Asset carbon 50.0 > investor max 10"
  /\ r_evidence (try_except (@_rule_return_and_risk example_builtins investor asset) no_outcome)
     = VDict [("expected_return", VFloat 0.1); ("volatility", VFloat 0.5);
              ("thresholds", VDict [("max_volatility", VFloat 0.30);
                                    ("min_return", VFloat 0.06)])].
Proof.
  cbv zeta.
  split; [repeat split; simpl; auto|].
  split; [|repeat split; reflexivity].
  apply (@C10_falsy_field_is_absent example_builtins
           [("max_carbon_score", VInt 10)]
           [("symbol", VStr "XYZ"); ("carbon_emissions", VInt 0);
            ("carbon_score", VInt 50); ("expected_return", VFloat 0.1);
            ("volatility", VInt 0); ("beta", VFloat 0.5)]
           "carbon_emissions" (VInt 0)); simpl; auto.
Defined.

(* ----------------------------------------------------------------- *)
(** *** The confidence of the final decision *)

Section Confidence.
Context `{PyBuiltins} `{Config}.

Lemma signature_one tree name o c :
  signature tree = [(name, o, c)] ->
  exists n, tree = [n] /\ n_rule n = name /\ n_outcome n = o /\ n_confidence n = c.
Proof.
  destruct tree as [|n [|n' tree]]; simpl; try discriminate.
  intros E. injection E as E1 E2 E3. exists n. auto.
Qed.

Lemma signature_two tree name1 o1 c1 name2 o2 c2 :
  signature tree = [(name1, o1, c1); (name2, o2, c2)] ->
  exists n1 n2, tree = [n1; n2]
    /\ n_outcome n1 = o1 /\ n_confidence n1 = c1
    /\ n_outcome n2 = o2 /\ n_confidence n2 = c2.
Proof.
  destruct tree as [|n1 [|n2 [|n3 tree]]]; simpl; try discriminate.
  intros E. injection E as E1 E2 E3 E4 E5 E6. exists n1, n2. auto 6.
Qed.

(** The reason tree of a Decision is one node that carries the decision
    and the confidence, or the node of the recent drop followed by the node
    of return and risk. *)
Lemma tree_of_decision investor asset rp w :
  let d := decision_of investor asset rp w in
  (exists n, d_reason_tree d = [n]
             /\ n_outcome n = d_decision d /\ n_confidence n = d_confidence d
             /\ py_max 0.0%float (n_confidence n) = n_confidence n)
  \/ (exists n1 n2, d_reason_tree d = [n1; n2]
        /\ n_outcome n1 = deprioritize /\ n_confidence n1 = 0.7%float
        /\ ((n_outcome n2 = accept /\ n_confidence n2 = 0.8%float
             /\ d_decision d = accept /\ d_confidence d = 0.8%float)
            \/ (n_outcome n2 = deprioritize /\ n_confidence n2 = 0.6%float
                /\ d_decision d = deprioritize /\ d_confidence d = 0.7%float))).
Proof.
  cbv zeta. pose proof (decision_of_end investor asset rp w) as I. cbv zeta in I.
  unfold ends in I. simpl in I.
  destruct I as [I|[I|[I|[I|[I|[I|[I|[I|[]]]]]]]]];
    injection I as Ed Ec Et; symmetry in Et;
    first [ destruct (signature_one _ _ _ _ Et) as (n & T & _ & O & C);
            left; exists n; rewrite <- Ed, <- Ec, C; repeat split; auto
          | destruct (signature_two _ _ _ _ _ _ _ Et) as (n1 & n2 & T & O1 & C1 & O2 & C2);
            right; exists n1, n2; rewrite <- Ed, <- Ec; auto 10 ].
Qed.

(** C2. In every evaluation, when an accept node comes after deprioritize
    nodes in the reason tree, the decision is accept and the final
    confidence is the greatest confidence among the accept nodes only, which
    is the confidence of that accept node: the confidence of the
    deprioritize nodes before it does not show in the result. When a reject
    node is in the reason tree, the decision is reject and the final
    confidence is the confidence of that node. The loop computes
    [max(final_confidence, node confidence)] at each of these places, which
    gives this on every investor and asset: the only deprioritize node
    before an accept has confidence 0.7 against 0.8, and a reject node is
    the only node of its tree. *)
Theorem C2_confidence_of_the_winning_outcome investor asset rp w :
  let d := decision_of investor asset rp w in
  let tree := d_reason_tree d in
  (forall deps acc,
      tree = (deps ++ [acc])%list ->
      Forall (fun n => n_outcome n = deprioritize) deps ->
      n_outcome acc = accept ->
      d_decision d = accept
      /\ d_confidence d = max_confidence accept tree
      /\ d_confidence d = n_confidence acc)
  /\ (forall rej,
        In rej tree -> n_outcome rej = reject ->
        d_decision d = reject
        /\ d_confidence d = n_confidence rej
        /\ tree = [rej])
  /\ (d_decision d = accept -> d_confidence d = max_confidence accept tree)
  /\ (d_decision d = reject ->
      exists rej, tree = [rej] /\ n_outcome rej = reject
                  /\ d_confidence d = n_confidence rej).
Proof.
  cbv zeta.
  destruct (tree_of_decision investor asset rp w)
    as [(n & T & O & C & Z)
       |(n1 & n2 & T & O1 & C1 & [(O2 & C2 & D & F)|(O2 & C2 & D & F)])];
    cbv zeta in *; rewrite T.
  - split; [|split; [|split]].
    + intros deps acc E A Oa.
      destruct (app_inj_tail [] deps n acc E) as [_ En]. subst acc.
      unfold max_confidence. simpl. rewrite Oa. simpl.
      rewrite Z, <- O, Oa, <- C. auto.
    + intros rej [I|[]] Or. subst rej. rewrite <- O, Or, <- C. auto.
    + intros Da. rewrite <- O in Da. unfold max_confidence. simpl. rewrite Da. simpl.
      rewrite Z, <- C. reflexivity.
    + intros Dr. exists n. rewrite <- O in Dr. auto.
  - split; [|split; [|split]].
    + intros deps acc E A Oa. rewrite D, F.
      unfold max_confidence. simpl. rewrite O1, O2, C2. simpl.
      destruct (app_inj_tail [n1] deps n2 acc E) as [_ En]. subst acc.
      rewrite C2. auto.
    + intros rej [I|[I|[]]] Or; subst rej; congruence.
    + intros _. rewrite F. unfold max_confidence. simpl. rewrite O1, O2, C2. reflexivity.
    + intros Dr. congruence.
  - split; [|split; [|split]].
    + intros deps acc E A Oa.
      destruct (app_inj_tail [n1] deps n2 acc E) as [_ En]. subst acc. congruence.
    + intros rej [I|[I|[]]] Or; subst rej; congruence.
    + intros Da. congruence.
    + intros Dr. congruence.
Qed.

End Confidence.

(** C2 on an asset that fell by 8% and whose expected return is 0.2, for an
    investor of high risk tolerance: the accept node comes after the node of
    the drop, and the confidence is 0.8. *)
Lemma C2_confidence_of_the_winning_outcome_witness :
  let investor : Dict := [("risk_tolerance", VStr "high")] in
  let asset : Dict := [("symbol", VStr "DEF"); ("percent_change", VInt (-8));
                       ("expected_return", VFloat 0.2)] in
  let d := @decision_of example_builtins example_config investor asset false
                        (example_world true) in
  let dflt := mkNode "" reject VNone VNone 0.0%float in
  let drop := hd dflt (d_reason_tree d) in
  let acc := last (d_reason_tree d) dflt in
  (d_reason_tree d = [drop; acc]
   /\ Forall (fun n => n_outcome n = deprioritize) [drop]
   /\ n_confidence drop = 0.7%float
   /\ n_outcome acc = accept)
  /\ d_decision d = accept
  /\ d_confidence d = max_confidence accept (d_reason_tree d)
  /\ d_confidence d = 0.8%float.
Proof.
  cbv zeta.
  set (d := @decision_of example_builtins example_config
              [("risk_tolerance", VStr "high")]
              [("symbol", VStr "DEF"); ("percent_change", VInt (-8));
               ("expected_return", VFloat 0.2)] false (example_world true)).
  set (dflt := mkNode "" reject VNone VNone 0.0%float).
  assert (T : d_reason_tree d = [hd dflt (d_reason_tree d); last (d_reason_tree d) dflt])
    by (vm_compute; reflexivity).
  assert (A : Forall (fun n => n_outcome n = deprioritize) [hd dflt (d_reason_tree d)])
    by (constructor; [vm_compute; reflexivity|constructor]).
  assert (Oa : n_outcome (last (d_reason_tree d) dflt) = accept)
    by (vm_compute; reflexivity).
  split; [split; [exact T|split; [exact A|split; [vm_compute; reflexivity|exact Oa]]]|].
  destruct (@C2_confidence_of_the_winning_outcome example_builtins example_config
              [("risk_tolerance", VStr "high")]
              [("symbol", VStr "DEF"); ("percent_change", VInt (-8));
               ("expected_return", VFloat 0.2)] false (example_world true))
    as (P & _ & _ & _).
  destruct (P [hd dflt (d_reason_tree d)] (last (d_reason_tree d) dflt) T A Oa)
    as (Da & M & C).
  split; [exact Da|]. split; [exact M|]. fold d in C. rewrite C. vm_compute. reflexivity.
Defined.

(* ----------------------------------------------------------------- *)
(** *** A rule that raises *)

Section Faults.
Context `{PyBuiltins} `{Config}.











End Faults.



(* ----------------------------------------------------------------- *)
(** *** The hash of a snapshot *)

Section ItemOrder.

Lemma ascii_compare_N a b :
  Ascii.compare a b = N.compare (N_of_ascii a) (N_of_ascii b).
Proof. reflexivity. Qed.

Lemma compare_not_Gt_trans : forall a b c : string,
  String.compare a b <> Gt -> String.compare b c <> Gt -> String.compare a c <> Gt.
Proof.
  induction a as [|x a IH]; intros [|y b] [|z c]; simpl; try congruence.
  rewrite !ascii_compare_N.
  destruct (N.compare_spec (N_of_ascii x) (N_of_ascii y)) as [Exy|Lxy|Gxy];
    destruct (N.compare_spec (N_of_ascii y) (N_of_ascii z)) as [Eyz|Lyz|Gyz];
    try congruence; intros Hab Hbc.
  - rewrite Exy, Eyz, N.compare_refl. apply (IH b c); assumption.
  - rewrite Exy. apply N.compare_lt_iff in Lyz. rewrite Lyz. discriminate.
  - rewrite <- Eyz. apply N.compare_lt_iff in Lxy. rewrite Lxy. discriminate.
  - assert (L : (N_of_ascii x < N_of_ascii z)%N) by (eapply N.lt_trans; eassumption).
    apply N.compare_lt_iff in L. rewrite L. discriminate.
Qed.

Lemma string_leb_trans a b c :
  String.leb a b = true -> String.leb b c = true -> String.leb a c = true.
Proof.
  unfold String.leb. intros Hab Hbc.
  pose proof (compare_not_Gt_trans a b c) as T.
  destruct (String.compare a b), (String.compare b c), (String.compare a c);
    try discriminate; try reflexivity; exfalso; apply T;
    first [discriminate | reflexivity].
Qed.

Context {A : Type}.
Implicit Types (x y : string * A) (l : list (string * A)).

(** Two items of distinct keys are inserted in either order. *)
Lemma insert_item_swap x y l :
  fst x <> fst y ->
  insert_item x (insert_item y l) = insert_item y (insert_item x l).
Proof.
  intros N.
  assert (Oxy : String.leb (fst x) (fst y) = negb (String.leb (fst y) (fst x))).
  { destruct (String.leb (fst x) (fst y)) eqn:Lxy, (String.leb (fst y) (fst x)) eqn:Lyx;
      simpl; auto.
    - destruct N. apply String.leb_antisym; assumption.
    - destruct (String.leb_total (fst x) (fst y)); congruence. }
  induction l as [|e l IH]; simpl.
  - rewrite Oxy. destruct (String.leb (fst y) (fst x)); reflexivity.
  - destruct (String.leb (fst x) (fst e)) eqn:Lxe, (String.leb (fst y) (fst e)) eqn:Lye;
      simpl; rewrite ?Lxe, ?Lye.
    + rewrite Oxy. destruct (String.leb (fst y) (fst x)); simpl; rewrite ?Lxe, ?Lye; reflexivity.
    + assert (Lyx : String.leb (fst y) (fst x) = false).
      { destruct (String.leb (fst y) (fst x)) eqn:Lyx; auto.
        rewrite (string_leb_trans _ _ _ Lyx Lxe) in Lye. discriminate. }
      rewrite Lyx. simpl. rewrite ?Lxe, ?Lye. reflexivity.
    + assert (Lxy : String.leb (fst x) (fst y) = false).
      { destruct (String.leb (fst x) (fst y)) eqn:Lxy; auto.
        rewrite (string_leb_trans _ _ _ Lxy Lye) in Lxe. discriminate. }
      rewrite Lxy. simpl. rewrite ?Lxe, ?Lye. reflexivity.
    + rewrite IH. reflexivity.
Qed.

(** Sorting forgets the order of insertion when the keys are distinct. *)
Lemma sort_items_permutation l l' :
  Permutation l l' -> NoDup (map fst l) -> sort_items l = sort_items l'.
Proof.
  induction 1 as [|x l l' P IH|x y l|l l' l'' P1 IH1 P2 IH2]; intros D; simpl.
  - reflexivity.
  - inversion D; subst. rewrite IH; auto.
  - apply insert_item_swap.
    inversion D as [|? ? Ny _]; subst. intros E. apply Ny. left. auto.
  - rewrite IH1 by assumption. apply IH2.
    eapply Permutation_NoDup; [|exact D]. apply Permutation_map. exact P1.
Qed.

End ItemOrder.

Section Digest.
Context `{PyBuiltins}.

Lemma hexdigest_length msg : String.length (Sha256.hexdigest msg) = 64%nat.
Proof. reflexivity. Qed.

Lemma nibble_hex x i : is_hex_char (Sha256.nibble x i) = true.
Proof.
  unfold Sha256.nibble, Sha256.hex_digit.
  change 0xf with (Z.ones 4). rewrite Z.land_ones by lia.
  pose proof (Z.mod_pos_bound (Z.shiftr x (4 * i)) (2 ^ 4) eq_refl) as B.
  remember (Z.shiftr x (4 * i) mod 2 ^ 4) as n eqn:E. clear E.
  assert (E : n = Z.of_nat (Z.to_nat n)) by lia.
  assert (B' : (Z.to_nat n < 16)%nat) by lia.
  revert E B'. generalize (Z.to_nat n). intros k E B'. subst n.
  do 16 (destruct k as [|k]; [reflexivity|]). lia.
Qed.

Lemma hexdigest_hex msg :
  forallb is_hex_char (list_ascii_of_string (Sha256.hexdigest msg)) = true.
Proof.
  unfold Sha256.hexdigest. generalize (Sha256.hash msg). intros s.
  cbv [Sha256.hex_of_state Sha256.hex32 append list_ascii_of_string forallb].
  rewrite !nibble_hex. reflexivity.
Qed.

(** C9. [sha256_of_obj] is a function of the mapping's key-value pairs: two
    mappings with the same pairs, in whatever order they were inserted, have
    the same JSON text and the same digest, and the digest has 64
    characters, all of them hexadecimal digits in lower case. *)
Theorem C9_hash_is_key_order_independent (d1 d2 : Dict) :
  wf_dict d1 ->
  Permutation d1 d2 ->
  json_dumps_sorted (VDict d1) = json_dumps_sorted (VDict d2)
  /\ sha256_of_obj (VDict d1) = sha256_of_obj (VDict d2)
  /\ String.length (sha256_of_obj (VDict d1)) = 64%nat
  /\ forallb is_hex_char (list_ascii_of_string (sha256_of_obj (VDict d1))) = true.
Proof.
  intros W P.
  assert (J : json_dumps_sorted (VDict d1) = json_dumps_sorted (VDict d2)).
  { unfold json_dumps_sorted. simpl.
    rewrite (sort_items_permutation
               (map (fun kv => match kv with (k, x) => (k, encode None 1 x) end) d1)
               (map (fun kv => match kv with (k, x) => (k, encode None 1 x) end) d2)).
    - reflexivity.
    - apply Permutation_map. exact P.
    - rewrite map_map.
      erewrite map_ext; [exact W|]. intros [k x]. reflexivity. }
  split; [exact J|]. split; [|split].
  - unfold sha256_of_obj. rewrite J. reflexivity.
  - apply hexdigest_length.
  - apply hexdigest_hex.
Qed.

End Digest.

(** C9 on a snapshot and the same snapshot with its keys in another order;
    the digest is the one [hashlib] gives for the text
    [{"percent_change": -8, "sector": "Tobacco", "symbol": "XYZ"}]. *)
Lemma C9_hash_is_key_order_independent_witness :
  let d1 : Dict := [("symbol", VStr "XYZ"); ("sector", VStr "Tobacco");
                    ("percent_change", VInt (-8))] in
  let d2 : Dict := [("percent_change", VInt (-8)); ("symbol", VStr "XYZ");
                    ("sector", VStr "Tobacco")] in
  (wf_dict d1 /\ Permutation d1 d2)
  /\ @sha256_of_obj example_builtins (VDict d1) = @sha256_of_obj example_builtins (VDict d2)
  /\ @sha256_of_obj example_builtins (VDict d1)
     = "abf6e07b3576f857e45b0f94f33cbded7dfc1cfdc1e3845b5bcd3f1d42a56e4b".
Proof.
  cbv zeta.
  assert (W : wf_dict [("symbol", VStr "XYZ"); ("sector", VStr "Tobacco");
                       ("percent_change", VInt (-8))]).
  { unfold wf_dict. simpl. repeat constructor; simpl; intuition discriminate. }
  assert (P : Permutation
                [("symbol", VStr "XYZ"); ("sector", VStr "Tobacco");
                 ("percent_change", VInt (-8))]
                [("percent_change", VInt (-8)); ("symbol", VStr "XYZ");
                 ("sector", VStr "Tobacco")]).
  { eapply perm_trans; [apply perm_skip; apply perm_swap|apply perm_swap]. }
  split; [split; assumption|].
  destruct (@C9_hash_is_key_order_independent example_builtins _ _ W P) as (_ & E & _ & _).
  split; [exact E|]. vm_compute. reflexivity.
Defined.

(* ----------------------------------------------------------------- *)
(** *** The provenance receipt *)

Section Receipt.
Context `{PyBuiltins} `{Config}.

Lemma lookup_In k d v : lookup k d = Some v -> In (k, v) d.
Proof.
  induction d as [|[k' x] d IH]; simpl; [discriminate|].
  destruct (String.eqb k k') eqn:E.
  - apply String.eqb_eq in E. intros I. injection I as I. subst. left. reflexivity.
  - intros I. right. apply IH. exact I.
Qed.

Lemma size_item k v d : In (k, v) d -> (size v < size (VDict d))%nat.
Proof.
  simpl. induction d as [|[k' x] d IH]; simpl; [tauto|].
  intros [E|I].
  - injection E as _ E. subst. lia.
  - specialize (IH I). lia.
Qed.

(** A value read from a dictionary is not the dictionary. *)
Lemma get_is_not_whole k d : get k d <> VDict d.
Proof.
  unfold get, get_default. destruct (lookup k d) as [v|] eqn:L; [|discriminate].
  intros E. apply lookup_In, size_item in L. rewrite E in L. lia.
Qed.

(** C8. [record_provenance_blob] does not raise: for every snapshot, tag
    and state of the world it returns a receipt, whether the file can be
    written or not. The receipt has exactly the four fields symbol, hash,
    path and timestamp; the hash is the SHA-256 of the snapshot, there is no
    field for the raw snapshot, and no field holds the snapshot. When the
    write fails, the files are left as they were and the failure is logged. *)
Theorem C8_receipt_whatever_the_write (raw : Dict) (tag : PyVal) (w : World) :
  let ts := w_clock w (w_reads w) in
  let path := receipt_path raw ts in
  exists receipt w',
    record_provenance_blob raw tag w = (Ok receipt, w')
    /\ receipt = [("symbol", py_or (get "symbol" raw) (get "id" raw));
                  ("hash", VStr (sha256_of_obj (VDict raw)));
                  ("path", VStr path);
                  ("timestamp", VInt ts)]
    /\ keys receipt = ["symbol"; "hash"; "path"; "timestamp"]
    /\ lookup "raw" receipt = None
    /\ (forall k v, In (k, v) receipt -> v <> VDict raw)
    /\ String.length (sha256_of_obj (VDict raw)) = 64%nat
    /\ (w_writable w path = false ->
        w_files w' = w_files w
        /\ w_log w' = (w_log w ++ [mkLog ERROR ("Failed to write provenance file "
                                                ++ path ++ ": ") (Some OSError)])%list)
    /\ (w_writable w path = true ->
        exists content, w_files w' = (path, content) :: w_files w).
Proof.
  cbv zeta. unfold record_provenance_blob, bind, time_secs, write_file, ret, receipt_path.
  set (sym := py_or (get "symbol" raw) (get "id" raw)).
  repeat match goal with
         | |- context [get "symbol" (?e :: ?l)] => change (get "symbol" (e :: l)) with sym
         end.
  simpl.
  fold (receipt_path raw (w_clock w (w_reads w))); unfold receipt_path; fold sym.
  match goal with
  | |- context [w_writable w ?p] => destruct (w_writable w p) eqn:Wr
  end; simpl;
    eexists; eexists; (split; [reflexivity|]); (split; [reflexivity|]);
    (split; [reflexivity|]); (split; [reflexivity|]); (split; [|split; [|split]]).
  - intros k v [E|[E|[E|[E|[]]]]]; injection E as _ E; subst v; try discriminate.
    unfold sym, py_or. destruct (truthy (get "symbol" raw)); apply get_is_not_whole.
  - first [reflexivity | exact (hexdigest_length _)].
  - discriminate.
  - intros _. eexists. reflexivity.
  - intros k v [E|[E|[E|[E|[]]]]]; injection E as _ E; subst v; try discriminate.
    unfold sym, py_or. destruct (truthy (get "symbol" raw)); apply get_is_not_whole.
  - first [reflexivity | exact (hexdigest_length _)].
  - intros _. split; reflexivity.
  - discriminate.
Qed.

End Receipt.

(** C8 in a world where no file can be written: the receipt is returned,
    the files are left as they were. *)
Lemma C8_receipt_whatever_the_write_witness :
  let raw : Dict := [("symbol", VStr "XYZ"); ("sector", VStr "Tobacco");
                     ("percent_change", VInt (-8))] in
  let out := @record_provenance_blob example_builtins example_config raw
               (VStr "metta_input") (example_world false) in
  fst out
  = Ok [("symbol", VStr "XYZ");
        ("hash", VStr "abf6e07b3576f857e45b0f94f33cbded7dfc1cfdc1e3845b5bcd3f1d42a56e4b");
        ("path", VStr "./provenance_logs/XYZ_1700000000.json");
        ("timestamp", VInt 1700000000)]
  /\ w_files (snd out) = [].
Proof.
  cbv zeta.
  destruct (@C8_receipt_whatever_the_write example_builtins example_config
              [("symbol", VStr "XYZ"); ("sector", VStr "Tobacco");
               ("percent_change", VInt (-8))]
              (VStr "metta_input") (example_world false))
    as (receipt & w' & E & R & _ & _ & _ & _ & F & _).
  rewrite E. simpl. split.
  - rewrite R. vm_compute. reflexivity.
  - apply F. reflexivity.
Defined.

(* ================================================================= *)
(** ** Further properties of [evaluate_asset] *)

Section Shape.
Context `{PyBuiltins} `{Config}.

Lemma signature_outcomes tree :
  map n_outcome tree = map (fun x => snd (fst x)) (signature tree).
Proof. unfold signature. rewrite map_map. reflexivity. Qed.

Lemma signature_confidences tree :
  map n_confidence tree = map snd (signature tree).
Proof. unfold signature. rewrite map_map. reflexivity. Qed.

Lemma running_max_confidences tree :
  running_max tree = fold_left py_max (map n_confidence tree) 0.0%float.
Proof.
  unfold running_max, running_max_from. generalize 0.0%float.
  induction tree as [|n tree IH]; intros m; simpl; auto.
Qed.

(** The reason tree of every Decision has one or two nodes; the decision
    is the outcome of its last node, and the confidence is the greatest
    confidence of its nodes. *)
Theorem decision_follows_reason_tree investor asset rp w :
  let d := decision_of investor asset rp w in
  (1 <= List.length (d_reason_tree d) <= 2)%nat
  /\ last (map n_outcome (d_reason_tree d)) reject = d_decision d
  /\ running_max (d_reason_tree d) = d_confidence d.
Proof.
  cbv zeta. pose proof (decision_of_end investor asset rp w) as I. cbv zeta in I.
  rewrite running_max_confidences.
  rewrite <- (length_map n_outcome), signature_outcomes, signature_confidences.
  unfold ends in I. simpl in I.
  destruct I as [I|[I|[I|[I|[I|[I|[I|[I|[]]]]]]]]];
    injection I as Ed Ec Es; rewrite <- Ed, <- Ec, <- Es; simpl;
    repeat split; try lia; reflexivity.
Qed.

(** The confidence of every Decision lies between 0.2 and 0.95 and its
    score between 0 and 0.8; the score is 0 for a reject, and only then, and
    at least 0.1 otherwise. *)
Theorem score_and_confidence_ranges investor asset rp w :
  let d := decision_of investor asset rp w in
  (0.2 <=? d_confidence d)%float = true
  /\ (d_confidence d <=? 0.95)%float = true
  /\ (0 <=? d_score d)%float = true
  /\ (d_score d <=? 0.8)%float = true
  /\ (d_score d <=? d_confidence d)%float = true
  /\ (d_decision d = reject <-> (d_score d =? 0)%float = true)
  /\ (d_decision d <> reject -> (0.1 <=? d_score d)%float = true).
Proof.
  cbv zeta. pose proof (decision_of_end investor asset rp w) as I. cbv zeta in I.
  destruct (decision_of_concluded investor asset rp w) as [_ S]. cbv zeta in S.
  rewrite S. unfold ends in I. simpl in I.
  destruct I as [I|[I|[I|[I|[I|[I|[I|[I|[]]]]]]]]];
    injection I as Ed Ec _; rewrite <- Ed, <- Ec;
    repeat split; try reflexivity; try discriminate; try congruence;
    vm_compute; intros; congruence.
Qed.

End Shape.

Section Effects.
Context `{PyBuiltins} `{Config}.

Lemma emit_all_logged rs : forall w, emit_all rs w = (tt, logged w rs).
Proof.
  induction rs as [|r rs IH]; intros w; simpl.
  - unfold ret, logged. rewrite app_nil_r. destruct w; reflexivity.
  - unfold bind, emit. rewrite IH. unfold logged. simpl.
    rewrite <- app_assoc. reflexivity.
Qed.

(** What [evaluate_asset] does around the decision when it records no
    provenance: one reading of the clock, the errors of the rules and one
    INFO record in the log, no file. *)
Lemma evaluate_without_provenance investor asset w :
  let st := loop_of RULES investor asset in
  let '(dec, conf, tree) := concluded st in
  let now := w_clock w (w_reads w) in
  exists summary,
    evaluate_asset investor asset false w
    = (mkDecision (symbol_of asset) dec (mapping dec * conf)%float tree conf None now,
       mkWorld (w_clock w) (S (w_reads w)) (w_files w) (w_writable w)
               (w_log w ++ st_errors st ++ [mkLog INFO summary None])%list).
Proof.
  cbv zeta. unfold evaluate_asset, evaluate_with, loop_of, symbol_of, concluded.
  unfold bind at 1. rewrite emit_all_logged.
  destruct (st_final_decision _); unfold bind, ret, time_secs, log_info, emit, logged;
    simpl; eexists; rewrite <- app_assoc; reflexivity.
Qed.

(** The decision does not depend on what is outside the rules: asking for
    the provenance or not, the clock, the files and whether they can be
    written give the same asset, decision, score, confidence and reason
    tree. Without provenance, the Decision carries none, no file is touched
    and the clock is read once, for the timestamp. *)
Theorem decision_apart_from_provenance investor asset rp rp' w w' :
  let d := decision_of investor asset rp w in
  let d' := decision_of investor asset rp' w' in
  let quiet := evaluate_asset investor asset false w in
  (d_asset d, d_decision d, d_score d, d_confidence d, d_reason_tree d)
  = (d_asset d', d_decision d', d_score d', d_confidence d', d_reason_tree d')
  /\ d_provenance (fst quiet) = None
  /\ d_timestamp (fst quiet) = w_clock w (w_reads w)
  /\ w_files (snd quiet) = w_files w
  /\ w_reads (snd quiet) = S (w_reads w).
Proof.
  cbv zeta. split.
  - destruct (evaluate_with_concluded RULES investor asset rp w) as (E & S & A).
    destruct (evaluate_with_concluded RULES investor asset rp' w') as (E' & S' & A').
    cbv zeta in *. unfold decision_of, evaluate_asset.
    rewrite <- E' in E. injection E as Ed Ec Et.
    rewrite S, S', A, A', Ed, Ec, Et. reflexivity.
  - pose proof (evaluate_without_provenance investor asset w) as Q. cbv zeta in Q.
    destruct (concluded (loop_of RULES investor asset)) as [[dec conf] tree].
    destruct Q as [summary Q]. rewrite Q. simpl. auto.
Qed.

(** [record_provenance_blob], run. *)
Lemma record_provenance_blob_run raw tag w :
  let ts := w_clock w (w_reads w) in
  let path := receipt_path raw ts in
  let sym := py_or (get "symbol" raw) (get "id" raw) in
  exists content record,
    record_provenance_blob raw tag w
    = (Ok [("symbol", sym); ("hash", VStr (sha256_of_obj (VDict raw)));
           ("path", VStr path); ("timestamp", VInt ts)],
       if w_writable w path
       then mkWorld (w_clock w) (S (w_reads w)) ((path, content) :: w_files w)
                    (w_writable w) (w_log w ++ [record])%list
       else mkWorld (w_clock w) (S (w_reads w)) (w_files w)
                    (w_writable w) (w_log w ++ [record])%list).
Proof.
  cbv zeta. unfold record_provenance_blob, bind, time_secs, write_file, ret, receipt_path.
  set (sym := py_or (get "symbol" raw) (get "id" raw)).
  repeat match goal with
         | |- context [get "symbol" (?e :: ?l)] => change (get "symbol" (e :: l)) with sym
         end.
  simpl.
  match goal with
  | |- context [w_writable w ?p] => destruct (w_writable w p) eqn:Wr
  end; simpl; [|exists EmptyString]; repeat eexists.
Qed.

Lemma evaluate_with_provenance investor asset w :
  let st := loop_of RULES investor asset in
  let '(dec, conf, tree) := concluded st in
  let ts := w_clock w (w_reads w) in
  let path := receipt_path asset ts in
  exists content record summary,
    evaluate_asset investor asset true w
    = (mkDecision (symbol_of asset) dec (mapping dec * conf)%float tree conf
         (Some [("symbol", py_or (get "symbol" asset) (get "id" asset));
                ("hash", VStr (sha256_of_obj (VDict asset)));
                ("path", VStr path); ("timestamp", VInt ts)])
         (w_clock w (S (w_reads w))),
       mkWorld (w_clock w) (S (S (w_reads w)))
               (if w_writable w path then (path, content) :: w_files w else w_files w)
               (w_writable w)
               (w_log w ++ st_errors st ++ [record; mkLog INFO summary None])%list).
Proof.
  cbv zeta. unfold evaluate_asset, evaluate_with, loop_of, symbol_of, concluded.
  set (st := run_rules investor asset _ RULES loop_init).
  unfold bind at 1. rewrite emit_all_logged.
  destruct (record_provenance_blob_run asset (VStr "metta_input") (logged w (st_errors st)))
    as (content & record & R). cbv zeta in R. simpl in R.
  destruct (st_final_decision st); unfold bind; rewrite R;
    unfold ret, time_secs, log_info, emit;
    destruct (w_writable w (receipt_path asset (w_clock w (w_reads w)))) eqn:Wr;
    simpl; exists content, record; eexists;
    rewrite <- !app_assoc; simpl; reflexivity.
Qed.

(** With the provenance asked, the Decision carries the receipt of the
    asset it judged: the SHA-256 of that asset, the path built from its
    symbol and the first reading of the clock. The timestamp of the Decision
    is the second reading. The record is in the files exactly when the path
    can be written, and the Decision is returned in both cases. *)
Theorem decision_carries_receipt investor asset w :
  let ts := w_clock w (w_reads w) in
  let path := receipt_path asset ts in
  let out := evaluate_asset investor asset true w in
  d_provenance (fst out)
  = Some [("symbol", py_or (get "symbol" asset) (get "id" asset));
          ("hash", VStr (sha256_of_obj (VDict asset)));
          ("path", VStr path);
          ("timestamp", VInt ts)]
  /\ d_timestamp (fst out) = w_clock w (S (w_reads w))
  /\ (w_writable w path = true -> exists content,
        w_files (snd out) = (path, content) :: w_files w)
  /\ (w_writable w path = false -> w_files (snd out) = w_files w).
Proof.
  cbv zeta. pose proof (evaluate_with_provenance investor asset w) as Q. cbv zeta in Q.
  destruct (concluded (loop_of RULES investor asset)) as [[dec conf] tree].
  destruct Q as (content & record & summary & Q). rewrite Q. simpl.
  repeat split; try reflexivity.
  - intros Wr. rewrite Wr. exists content. reflexivity.
  - intros Wr. rewrite Wr. reflexivity.
Qed.

End Effects.

Section Fields.
Context `{PyBuiltins} `{Config}.

(** The decision is a function of the four results of the rules. *)
Lemma concluded_by_rules investor asset investor' asset' :
  _rule_exclude_industry investor asset = _rule_exclude_industry investor' asset' ->
  _rule_exclude_by_carbon investor asset = _rule_exclude_by_carbon investor' asset' ->
  _rule_recent_large_drop investor asset = _rule_recent_large_drop investor' asset' ->
  _rule_return_and_risk investor asset = _rule_return_and_risk investor' asset' ->
  concluded (loop_of RULES investor asset) = concluded (loop_of RULES investor' asset').
Proof.
  intros R1 R2 R3 R4. apply concluded_core. rewrite !loop_of_aggregate.
  unfold nodes_of, RULES, contribution. simpl flat_map.
  rewrite R1, R2, R3, R4. reflexivity.
Qed.

Lemma not_in_cons (k a : string) l : ~ In k (a :: l) -> a <> k /\ ~ In k l.
Proof. simpl. intros N. split; intros E; apply N; auto. Qed.

Ltac other_keys N :=
  repeat match type of N with
         | ~ In _ (_ :: _) =>
             let D := fresh "D" in
             apply not_in_cons in N; destruct N as [D N]
         end.

Ltac drop_key :=
  repeat (rewrite get_remove_other by congruence);
  repeat (rewrite get_default_remove_other by congruence).

(** The rules read eight fields of the asset and three of the investor, and
    nothing else: an asset or an investor without one of its other fields
    gets the same decision, confidence and reason tree. *)
Theorem other_fields_are_not_read investor asset ka ki :
  ~ In ka asset_fields ->
  ~ In ki investor_fields ->
  concluded (loop_of RULES (remove ki investor) (remove ka asset))
  = concluded (loop_of RULES investor asset).
Proof.
  unfold asset_fields, investor_fields. intros Na Ni. other_keys Na. other_keys Ni.
  apply concluded_by_rules.
  - unfold _rule_exclude_industry. drop_key. reflexivity.
  - unfold _rule_exclude_by_carbon. drop_key. reflexivity.
  - unfold _rule_recent_large_drop. drop_key. reflexivity.
  - unfold _rule_return_and_risk. drop_key. reflexivity.
Qed.

Lemma table_lookup_other s :
  ~ In s risk_levels -> table_lookup s RISK_THRESHOLDS = None.
Proof.
  unfold risk_levels. intros N. other_keys N. simpl.
  repeat match goal with
         | D : ?a <> s |- context [String.eqb s ?a] =>
             replace (String.eqb s a) with false
               by (symmetry; apply String.eqb_neq; congruence)
         end.
  reflexivity.
Qed.

(** A risk tolerance that is a string other than ["low"], ["medium"] and
    ["high"], a capital letter being enough, is read as ["medium"]: the
    investor gets the decision of the investor without risk tolerance, and
    of the investor whose risk tolerance is ["medium"]. *)
Theorem unknown_risk_is_medium investor asset s :
  lookup "risk_tolerance" investor = Some (VStr s) ->
  ~ In s risk_levels ->
  concluded (loop_of RULES investor asset)
  = concluded (loop_of RULES (remove "risk_tolerance" investor) asset)
  /\ concluded (loop_of RULES investor asset)
     = concluded (loop_of RULES (("risk_tolerance", VStr "medium")
                                   :: remove "risk_tolerance" investor) asset).
Proof.
  intros L N.
  assert (T : thresholds_for (get_default "risk_tolerance" (VStr "medium") investor)
              = Ok (mkThresholds 0.30 0.06)).
  { unfold get_default. rewrite L. unfold thresholds_for.
    rewrite (table_lookup_other s N). reflexivity. }
  split; apply concluded_by_rules;
    try (unfold _rule_exclude_industry, _rule_exclude_by_carbon, _rule_recent_large_drop;
         unfold get, get_default; simpl; rewrite ?lookup_remove_other by discriminate;
         reflexivity).
  - unfold _rule_return_and_risk. rewrite T.
    unfold get_default at 1. rewrite lookup_remove_same. reflexivity.
  - unfold _rule_return_and_risk. rewrite T. reflexivity.
Qed.

End Fields.

(** The fields [price] of the asset and [goal] of the investor are not read. *)
Lemma other_fields_are_not_read_witness :
  let investor : Dict := [("risk_tolerance", VStr "low"); ("goal", VStr "growth")] in
  let asset : Dict := [("symbol", VStr "ABC"); ("price", VFloat 12.5);
                       ("percent_change", VInt (-8))] in
  (~ In "price" asset_fields /\ ~ In "goal" investor_fields)
  /\ @concluded (@loop_of example_builtins (@RULES example_builtins)
                   [("risk_tolerance", VStr "low")]
                   [("symbol", VStr "ABC"); ("percent_change", VInt (-8))])
     = @concluded (@loop_of example_builtins (@RULES example_builtins) investor asset).
Proof.
  cbv zeta.
  assert (Na : ~ In "price" asset_fields) by (simpl; intuition discriminate).
  assert (Ni : ~ In "goal" investor_fields) by (simpl; intuition discriminate).
  split; [split; assumption|].
  exact (@other_fields_are_not_read example_builtins
           [("risk_tolerance", VStr "low"); ("goal", VStr "growth")]
           [("symbol", VStr "ABC"); ("price", VFloat 12.5); ("percent_change", VInt (-8))]
           "price" "goal" Na Ni).
Defined.

(** The risk tolerance ["LOW"] is read as ["medium"]. *)
Lemma unknown_risk_is_medium_witness :
  let investor : Dict := [("risk_tolerance", VStr "LOW")] in
  let asset : Dict := [("symbol", VStr "DEF"); ("expected_return", VFloat 0.05)] in
  (lookup "risk_tolerance" investor = Some (VStr "LOW") /\ ~ In "LOW" risk_levels)
  /\ @concluded (@loop_of example_builtins (@RULES example_builtins) investor asset)
     = @concluded (@loop_of example_builtins (@RULES example_builtins)
                     [("risk_tolerance", VStr "medium")] asset)
  /\ fst (fst (@concluded (@loop_of example_builtins (@RULES example_builtins)
                             investor asset))) = deprioritize
  /\ fst (fst (@concluded (@loop_of example_builtins (@RULES example_builtins)
                             [("risk_tolerance", VStr "low")] asset))) = accept.
Proof.
  cbv zeta.
  assert (N : ~ In "LOW" risk_levels) by (simpl; intuition discriminate).
  split; [split; [reflexivity|exact N]|].
  split; [|split; reflexivity].
  exact (proj2 (@unknown_risk_is_medium example_builtins
                  [("risk_tolerance", VStr "LOW")]
                  [("symbol", VStr "DEF"); ("expected_return", VFloat 0.05)]
                  "LOW" eq_refl N)).
Defined.

Section Precedence.
Context `{PyBuiltins} `{Config}.

Lemma contribution_of_result r investor asset res :
  rule_fn r investor asset = Ok res ->
  contribution investor asset r
  = match r_outcome res with
    | Some o => Some (node_of r res o)
    | None => None
    end.
Proof. unfold contribution. intros ->. reflexivity. Qed.

(** The decision, once the contributions of the four rules are known. *)
Lemma concluded_of_contributions investor asset c1 c2 c3 c4 :
  contribution investor asset (mkRule "_rule_exclude_industry" _rule_exclude_industry) = c1 ->
  contribution investor asset (mkRule "_rule_exclude_by_carbon" _rule_exclude_by_carbon) = c2 ->
  contribution investor asset (mkRule "_rule_recent_large_drop" _rule_recent_large_drop) = c3 ->
  contribution investor asset (mkRule "_rule_return_and_risk" _rule_return_and_risk) = c4 ->
  let nodes o := match o with Some n => [n] | None => [] end in
  concluded (loop_of RULES investor asset)
  = concluded (aggregate (nodes c1 ++ nodes c2 ++ nodes c3 ++ nodes c4)%list loop_init).
Proof.
  intros E1 E2 E3 E4. cbv zeta.
  rewrite (concluded_core _ _ (loop_of_aggregate RULES investor asset)).
  unfold nodes_of, RULES. simpl flat_map. rewrite E1, E2, E3, E4.
  rewrite app_nil_r. reflexivity.
Qed.

(** Accept overrides a recent drop. For an investor with no exclusion and
    no carbon limit, an asset whose [expected_return] is a float at or above
    the minimum of the investor's row, and which has no volatility, beta or
    stddev, is accepted with confidence 0.8 and score 0.8, whatever its
    percent change: the node of the drop, when there is one, stays first in
    the reason tree. *)
Theorem accept_overrides_recent_drop investor asset t e rp w :
  truthy (get "excluded_industries" investor) = false ->
  get "max_carbon_score" investor = VNone ->
  thresholds_for (get_default "risk_tolerance" (VStr "medium") investor) = Ok t ->
  get "expected_return" asset = VFloat e ->
  get "volatility" asset = VNone ->
  get "beta" asset = VNone ->
  get "stddev" asset = VNone ->
  (min_return t <=? e)%float = true ->
  let d := decision_of investor asset rp w in
  d_decision d = accept
  /\ d_confidence d = 0.8%float
  /\ d_score d = 0.8%float
  /\ (signature (d_reason_tree d)
      = [("recent_large_drop", deprioritize, 0.7%float);
         ("accept_by_return_and_risk", accept, 0.8%float)]
      \/ signature (d_reason_tree d) = [("accept_by_return_and_risk", accept, 0.8%float)]).
Proof.
  intros Ex Mc Th Er Vo Be Sd Ok1. cbv zeta.
  destruct (decision_of_concluded investor asset rp w) as [E S]. cbv zeta in E, S.
  assert (C1 : contribution investor asset
                 (mkRule "_rule_exclude_industry" _rule_exclude_industry) = None).
  { unfold contribution. simpl rule_fn.
    rewrite (no_exclusion_no_outcome investor asset Ex). reflexivity. }
  assert (C2 : contribution investor asset
                 (mkRule "_rule_exclude_by_carbon" _rule_exclude_by_carbon) = None).
  { unfold contribution, _rule_exclude_by_carbon. simpl rule_fn. rewrite Mc. reflexivity. }
  assert (C4 : exists ev note,
             contribution investor asset
               (mkRule "_rule_return_and_risk" _rule_return_and_risk)
             = Some (mkNode "accept_by_return_and_risk" accept ev note 0.8%float)).
  { unfold contribution, _rule_return_and_risk. simpl rule_fn.
    rewrite Th, Er, Vo, Be, Sd. simpl. rewrite Ok1. simpl.
    eexists. eexists. reflexivity. }
  destruct C4 as (ev4 & nt4 & C4).
  destruct (contribution_drop investor asset) as [C3|(ev3 & nt3 & C3)]; cbv zeta in C3;
    rewrite (concluded_of_contributions investor asset _ _ _ _ C1 C2 C3 C4) in E;
    simpl in E; injection E as Ed Ec Et; rewrite S, Ed, Ec, Et;
    repeat split; auto.
Qed.

Lemma no_return_ends investor asset rp w :
  get "expected_return" asset = VNone ->
  get "percent_change" asset = VNone ->
  let d := decision_of investor asset rp w in
  d_decision d <> accept
  /\ In (d_decision d, d_confidence d, signature (d_reason_tree d))
        [(reject, 0.95, [("exclude_by_industry", reject, 0.95)]);
         (reject, 0.9, [("exclude_by_carbon", reject, 0.9)]);
         (deprioritize, 0.2, [("default_deprioritize", deprioritize, 0.2)])]%float.
Proof.
  intros Er Pc. cbv zeta.
  destruct (decision_of_concluded investor asset rp w) as [E _]. cbv zeta in E.
  assert (C3 : contribution investor asset
                 (mkRule "_rule_recent_large_drop" _rule_recent_large_drop) = None).
  { unfold contribution, _rule_recent_large_drop. simpl rule_fn. rewrite Pc. reflexivity. }
  assert (C4 : contribution investor asset
                 (mkRule "_rule_return_and_risk" _rule_return_and_risk) = None).
  { unfold contribution, _rule_return_and_risk. simpl rule_fn. rewrite Er, Pc.
    destruct (thresholds_for _); reflexivity. }
  destruct (contribution_industry investor asset) as [C1|(ev1 & nt1 & C1)];
    destruct (contribution_carbon investor asset) as [C2|(ev2 & nt2 & C2)];
    cbv zeta in C1, C2;
    rewrite (concluded_of_contributions investor asset _ _ _ _ C1 C2 C3 C4) in E;
    simpl in E; injection E as Ed Ec Et; rewrite Ed, Ec, Et;
    (split; [discriminate|simpl; auto]).
Qed.

(** An asset with neither [expected_return] nor [percent_change] is never
    accepted: the last two rules have nothing to say, and the decision is a
    reject of one of the first two rules or the default deprioritize. *)
Theorem no_return_no_accept investor asset rp w :
  get "expected_return" asset = VNone ->
  get "percent_change" asset = VNone ->
  let d := decision_of investor asset rp w in
  d_decision d <> accept
  /\ In (d_decision d, d_confidence d, signature (d_reason_tree d))
        [(reject, 0.95, [("exclude_by_industry", reject, 0.95)]);
         (reject, 0.9, [("exclude_by_carbon", reject, 0.9)]);
         (deprioritize, 0.2, [("default_deprioritize", deprioritize, 0.2)])]%float.
Proof. exact (no_return_ends investor asset rp w). Qed.

(** An asset with no symbol and no id is called ["UNKNOWN"] in the
    Decision, while its receipt has the symbol [None] and its record goes to
    the file [None_<timestamp>.json]. *)
Theorem nameless_asset investor asset w :
  lookup "symbol" asset = None ->
  lookup "id" asset = None ->
  let ts := w_clock w (w_reads w) in
  let d := decision_of investor asset true w in
  d_asset d = VStr "UNKNOWN"
  /\ d_provenance d
     = Some [("symbol", VNone);
             ("hash", VStr (sha256_of_obj (VDict asset)));
             ("path", VStr (path_join PROVENANCE_DIR ("None_" ++ int_str ts ++ ".json")));
             ("timestamp", VInt ts)].
Proof.
  intros Ls Li. cbv zeta. unfold decision_of.
  pose proof (evaluate_with_provenance investor asset w) as Q. cbv zeta in Q.
  destruct (concluded (loop_of RULES investor asset)) as [[dec conf] tree].
  destruct Q as (content & record & summary & Q). rewrite Q. simpl.
  unfold symbol_of, receipt_path, get, get_default. rewrite Ls, Li. simpl.
  split; reflexivity.
Qed.

End Precedence.

(** An asset that fell by 8% and whose expected return is 0.2 is accepted
    for an investor of high risk tolerance. *)
Lemma accept_overrides_recent_drop_witness :
  let investor : Dict := [("risk_tolerance", VStr "high")] in
  let asset : Dict := [("symbol", VStr "DEF"); ("percent_change", VInt (-8));
                       ("expected_return", VFloat 0.2)] in
  let d := @decision_of example_builtins example_config investor asset false
                        (example_world true) in
  d_decision d = accept
  /\ signature (d_reason_tree d)
     = [("recent_large_drop", deprioritize, 0.7%float);
        ("accept_by_return_and_risk", accept, 0.8%float)].
Proof.
  cbv zeta.
  destruct (@accept_overrides_recent_drop example_builtins example_config
              [("risk_tolerance", VStr "high")]
              [("symbol", VStr "DEF"); ("percent_change", VInt (-8));
               ("expected_return", VFloat 0.2)]
              (mkThresholds 0.60 0.12) 0.2%float false (example_world true)
              eq_refl eq_refl eq_refl eq_refl eq_refl eq_refl eq_refl eq_refl)
    as (D & _ & _ & _).
  split; [exact D|]. vm_compute. reflexivity.
Defined.

(** An asset with a symbol, a price and a sector only. *)
Lemma no_return_no_accept_witness :
  let investor : Dict := [("risk_tolerance", VStr "high")] in
  let asset : Dict := [("symbol", VStr "MSFT"); ("price", VFloat 410.5);
                       ("sector", VStr "Technology")] in
  let d := @decision_of example_builtins example_config investor asset false
                        (example_world true) in
  (get "expected_return" asset = VNone /\ get "percent_change" asset = VNone)
  /\ d_decision d <> accept.
Proof.
  cbv zeta. split; [split; reflexivity|].
  exact (proj1 (@no_return_no_accept example_builtins example_config
                  [("risk_tolerance", VStr "high")]
                  [("symbol", VStr "MSFT"); ("price", VFloat 410.5);
                   ("sector", VStr "Technology")]
                  false (example_world true) eq_refl eq_refl)).
Defined.

(** An asset that has a price only. *)
Lemma nameless_asset_witness :
  let asset : Dict := [("price", VFloat 12.5)] in
  let d := @decision_of example_builtins example_config [] asset true
                        (example_world true) in
  (lookup "symbol" asset = None /\ lookup "id" asset = None)
  /\ d_asset d = VStr "UNKNOWN"
  /\ option_map (get "path") (d_provenance d)
     = Some (VStr "./provenance_logs/None_1700000000.json").
Proof.
  cbv zeta. split; [split; reflexivity|].
  destruct (@nameless_asset example_builtins example_config [] [("price", VFloat 12.5)]
              (example_world true) eq_refl eq_refl) as (A & P).
  split; [exact A|]. rewrite P. reflexivity.
Defined.

(* ================================================================= *)
(** ** Properties of the client *)

Section Store.

Lemma lookup_set_same k v d : lookup k (set_item k v d) = Some v.
Proof.
  induction d as [|[k' x] d IH]; simpl.
  - rewrite String.eqb_refl. reflexivity.
  - destruct (String.eqb k k') eqn:E; simpl.
    + rewrite String.eqb_refl. reflexivity.
    + rewrite E. exact IH.
Qed.

Lemma lookup_set_other k k' v d : k <> k' -> lookup k' (set_item k v d) = lookup k' d.
Proof.
  intros N. induction d as [|[k'' x] d IH]; simpl.
  - replace (String.eqb k' k) with false; [reflexivity|].
    symmetry. apply String.eqb_neq. congruence.
  - destruct (String.eqb k k'') eqn:E; simpl.
    + apply String.eqb_eq in E. subst k''.
      replace (String.eqb k' k) with false; [reflexivity|].
      symmetry. apply String.eqb_neq. congruence.
    + rewrite IH. reflexivity.
Qed.

Lemma get_set_same k v d : get k (set_item k v d) = v.
Proof. unfold get, get_default. rewrite lookup_set_same. reflexivity. Qed.

Lemma get_set_other k k' v d : k <> k' -> get k' (set_item k v d) = get k' d.
Proof. intros N. unfold get, get_default. rewrite lookup_set_other; auto. Qed.

(** [_store_atom], run. *)
Lemma store_atom_run atom c :
  let w := c_world c in
  let id := atom_id_of c 0 in
  _store_atom atom c
  = (id, mkClient (later w 1)
                  (set_item id (stored_atom atom id (w_clock w (w_reads w))) (ATOM_STORE c))
                  (c_uuid c) (S (c_drawn c))
                  (c_debug c ++ [("[METTA_CLIENT] Stored atom " ++ id)%string])%list).
Proof.
  cbv zeta. unfold atom_id_of. rewrite Nat.add_0_r.
  unfold _store_atom, cbind, uuid4_hex, lift, timestamp_secs, time_secs, store,
    log_debug, cret, later, stored_atom. simpl. reflexivity.
Qed.

(** What is stored is found again. After [_store_atom atom], [get_atom] on
    the id returned gives the atom with its id under [_id] and the reading
    of the clock under [_ts], every other field being the atom's; every
    other id gives what it gave before. An id that was never stored gives
    [None]. *)
Theorem stored_atom_is_found atom c :
  let id := fst (_store_atom atom c) in
  let c' := snd (_store_atom atom c) in
  exists fields,
    fst (get_atom id c') = VDict fields
    /\ get "_id" fields = VStr id
    /\ get "_ts" fields = VInt (w_clock (c_world c) (w_reads (c_world c)))
    /\ (forall k, k <> "_id" -> k <> "_ts" -> get k fields = get k atom)
    /\ (forall k, k <> id -> fst (get_atom k c') = fst (get_atom k c))
    /\ (forall k, lookup k (ATOM_STORE c') = None -> fst (get_atom k c') = VNone).
Proof.
  cbv zeta. rewrite store_atom_run. simpl.
  eexists. split; [|split; [|split; [|split; [|split]]]].
  - unfold get_atom. simpl. rewrite get_set_same. unfold stored_atom. reflexivity.
  - rewrite get_set_other by discriminate. apply get_set_same.
  - apply get_set_same.
  - intros k N1 N2. rewrite !get_set_other by congruence. reflexivity.
  - intros k N. unfold get_atom. simpl. apply get_set_other. congruence.
  - intros k L. unfold get_atom, get, get_default. simpl in *. rewrite L. reflexivity.
Qed.

End Store.

Section Facade.
Context `{ExnText}.
Variable shim : Dict -> Dict -> bool -> M (Exn Decision).

(** [evaluate_asset_for_investor], run: two atoms are stored, the shim is
    called in the world two readings of the clock later, and the Decision is
    stored under its id. *)
Lemma facade_run asset investor rp c :
  let w := c_world c in
  let iid := atom_id_of c 0 in
  let aid := atom_id_of c 1 in
  let did := decision_id_of c 2 in
  let out := shim investor asset rp (later w 2) in
  let result := enriched (answered asset out) iid aid did in
  exists w' dbg,
    evaluate_asset_for_investor_with shim asset investor rp c
    = (result,
       mkClient w'
         (set_item did (VDict result)
            (set_item aid (stored_atom (asset_atom asset) aid (w_clock w (S (w_reads w))))
               (set_item iid (stored_atom (investor_atom investor) iid
                                (w_clock w (w_reads w)))
                  (ATOM_STORE c))))
         (c_uuid c) (3 + c_drawn c) dbg).
Proof.
  cbv zeta. unfold evaluate_asset_for_investor_with, assert_investor_profile,
    assert_asset_atom.
  unfold cbind at 1. rewrite store_atom_run.
  unfold cbind at 1. rewrite store_atom_run.
  unfold atom_id_of, decision_id_of, answered, enriched, investor_atom, asset_atom.
  cbn [c_world c_uuid c_drawn ATOM_STORE c_debug].
  rewrite !Nat.add_0_r, Nat.add_1_r.
  replace (c_drawn c + 2)%nat with (S (S (c_drawn c))) by lia.
  unfold later. cbn [w_clock w_reads w_files w_writable w_log Nat.add].
  unfold cbind, lift. cbn [c_world c_uuid c_drawn ATOM_STORE c_debug].
  destruct (shim investor asset rp _) as [[d|e] w3]; simpl;
    eexists; eexists; reflexivity.
Qed.

Lemma get_enriched k dec iid aid did :
  k <> "_investor_atom" -> k <> "_asset_atom" -> k <> "_decision_id" ->
  get k (enriched dec iid aid did) = get k dec.
Proof.
  intros N1 N2 N3. unfold enriched. rewrite !get_set_other by congruence. reflexivity.
Qed.

(** The facade does not let an exception of the shim through. When the
    shim raises, [evaluate_asset_for_investor] returns a Decision all the
    same: deprioritize, score 0.0, confidence 0.0, no provenance, the symbol
    of the asset, and one reason node [metta_error] with the text of the
    exception; the three ids are attached as for any Decision. *)
Theorem facade_falls_back asset investor rp c e :
  (forall w, fst (shim investor asset rp w) = Raise e) ->
  let decision := fst (evaluate_asset_for_investor_with shim asset investor rp c) in
  verdict decision
  = (get "symbol" asset, VStr "deprioritize", VFloat 0.0, VFloat 0.0)
  /\ get "reason_tree" decision
     = VList [VDict [("rule", VStr "metta_error"); ("note", VStr (exn_str e))]]
  /\ get "provenance" decision = VNone
  /\ get "_investor_atom" decision = VStr (atom_id_of c 0)
  /\ get "_asset_atom" decision = VStr (atom_id_of c 1)
  /\ get "_decision_id" decision = VStr (decision_id_of c 2).
Proof.
  intros R. cbv zeta.
  destruct (facade_run asset investor rp c) as (w' & dbg & E). cbv zeta in E.
  rewrite E. simpl fst. unfold answered. rewrite R. unfold verdict.
  rewrite !get_enriched by discriminate.
  unfold enriched, fallback_decision.
  repeat split; try reflexivity.
Qed.

(** The ids attached to a Decision lead back to what was judged. When the
    two atom ids differ, the store gives, under [_investor_atom], the atom
    of the investor profile; under [_asset_atom], the atom of the asset;
    and under [_decision_id], the Decision that is returned. The id of a
    Decision never is the id of an atom. *)
Theorem decision_ids_resolve asset investor rp c :
  atom_id_of c 0 <> atom_id_of c 1 ->
  let out := evaluate_asset_for_investor_with shim asset investor rp c in
  let decision := fst out in
  let found k := get k (ATOM_STORE (snd out)) in
  exists iid aid did ts ts',
    get "_investor_atom" decision = VStr iid
    /\ get "_asset_atom" decision = VStr aid
    /\ get "_decision_id" decision = VStr did
    /\ found iid = stored_atom (investor_atom investor) iid ts
    /\ found aid = stored_atom (asset_atom asset) aid ts'
    /\ found did = VDict decision
    /\ did <> iid /\ did <> aid.
Proof.
  intros N. cbv zeta.
  destruct (facade_run asset investor rp c) as (w' & dbg & E). cbv zeta in E.
  rewrite E. simpl fst. simpl snd. cbn [ATOM_STORE].
  assert (Di : decision_id_of c 2 <> atom_id_of c 0) by (unfold decision_id_of, atom_id_of; discriminate).
  assert (Da : decision_id_of c 2 <> atom_id_of c 1) by (unfold decision_id_of, atom_id_of; discriminate).
  exists (atom_id_of c 0), (atom_id_of c 1), (decision_id_of c 2).
  eexists. eexists.
  split; [|split; [|split; [|split; [|split; [|split; [|split]]]]]].
  - unfold enriched. rewrite !get_set_other by discriminate. apply get_set_same.
  - unfold enriched. rewrite get_set_other by discriminate. apply get_set_same.
  - unfold enriched. apply get_set_same.
  - rewrite get_set_other by exact Di. rewrite get_set_other by congruence.
    apply get_set_same.
  - rewrite get_set_other by exact Da. apply get_set_same.
  - apply get_set_same.
  - exact Di.
  - exact Da.
Qed.

End Facade.

Section Batch.
Context `{PyBuiltins} `{Config} `{ExnText}.

Lemma the_shim_answer investor asset rp w :
  fst (the_shim investor asset rp w) = Ok (decision_of investor asset rp w).
Proof.
  unfold the_shim, bind, ret, decision_of.
  destruct (evaluate_asset investor asset rp w). reflexivity.
Qed.

Lemma verdict_of_decision investor asset rp w :
  verdict (decision_dict (decision_of investor asset rp w)) = expected_verdict investor asset.
Proof.
  destruct (evaluate_with_concluded RULES investor asset rp w) as (E & S & A).
  cbv zeta in E, S, A. fold (evaluate_asset investor asset rp w) in E, S, A.
  fold (decision_of investor asset rp w) in E, S, A.
  unfold verdict, expected_verdict, decision_dict. rewrite <- E.
  unfold get, get_default. simpl. rewrite S, A. reflexivity.
Qed.

Lemma facade_verdict asset investor rp c :
  verdict (fst (evaluate_asset_for_investor asset investor rp c))
  = expected_verdict investor asset.
Proof.
  unfold evaluate_asset_for_investor.
  destruct (facade_run the_shim asset investor rp c) as (w' & dbg & E). cbv zeta in E.
  rewrite E. simpl fst. unfold answered. rewrite the_shim_answer.
  unfold verdict. rewrite !get_enriched by discriminate.
  apply verdict_of_decision.
Qed.

(** The facade returns the verdict of [evaluate_asset]: the asset, the
    decision, the score and the confidence of the Decision are those that
    the rules give for this investor and this asset, whatever the store,
    the clock and the ids drawn; the investor is the second argument of the
    facade and the first of the shim. The reason tree and the provenance
    are kept too. *)
Theorem facade_keeps_verdict asset investor rp c :
  let decision := fst (evaluate_asset_for_investor asset investor rp c) in
  let d := decision_of investor asset rp (later (c_world c) 2) in
  verdict decision = expected_verdict investor asset
  /\ get "reason_tree" decision = VList (map node_dict (d_reason_tree d))
  /\ get "provenance" decision
     = match d_provenance d with Some r => VDict r | None => VNone end
  /\ get "timestamp" decision = VInt (d_timestamp d).
Proof.
  cbv zeta. split; [apply facade_verdict|].
  unfold evaluate_asset_for_investor.
  destruct (facade_run the_shim asset investor rp c) as (w' & dbg & E). cbv zeta in E.
  rewrite E. simpl fst. unfold answered. rewrite the_shim_answer.
  rewrite !get_enriched by discriminate.
  repeat split; reflexivity.
Qed.

(** [batch_evaluate] returns one Decision for each asset, in the order of
    the assets, and each has the verdict that [evaluate_asset] gives for
    this asset alone: no asset changes the decision of another. *)
Theorem batch_is_pointwise assets investor rp c :
  map verdict (fst (batch_evaluate assets investor rp c))
  = map (expected_verdict investor) assets.
Proof.
  unfold batch_evaluate. revert c.
  induction assets as [|a assets IH]; intros c; simpl; auto.
  unfold cbind.
  pose proof (facade_verdict a investor rp c) as V.
  unfold evaluate_asset_for_investor in V.
  destruct (evaluate_asset_for_investor_with the_shim a investor rp c) as [res c1].
  specialize (IH c1).
  destruct (batch_evaluate_with the_shim assets investor rp c1) as [results c2].
  unfold cret. simpl in *. rewrite V, IH. reflexivity.
Qed.

End Batch.

(** The facade on a shim that raises [ValueError]. *)
Lemma facade_falls_back_witness :
  let asset : Dict := [("symbol", VStr "XYZ"); ("percent_change", VInt 2)] in
  let decision := fst (@evaluate_asset_for_investor_with example_exn_text failing_shim
                         asset [] false example_client) in
  (forall w, fst (failing_shim [] asset false w) = Raise ValueError)
  /\ verdict decision = (VStr "XYZ", VStr "deprioritize", VFloat 0.0, VFloat 0.0)
  /\ get "reason_tree" decision
     = VList [VDict [("rule", VStr "metta_error"); ("note", VStr "ValueError")]].
Proof.
  cbv zeta.
  assert (R : forall w, fst (failing_shim [] [("symbol", VStr "XYZ");
                                              ("percent_change", VInt 2)] false w)
                        = Raise ValueError) by reflexivity.
  split; [exact R|].
  destruct (@facade_falls_back example_exn_text failing_shim
              [("symbol", VStr "XYZ"); ("percent_change", VInt 2)] [] false
              example_client ValueError R) as (V & T & _).
  split; [exact V|exact T].
Defined.

(** The facade on the asset of scenario B, with an empty store. *)
Lemma decision_ids_resolve_witness :
  let investor : Dict := [("risk_tolerance", VStr "low")] in
  let asset : Dict := [("symbol", VStr "ABC"); ("percent_change", VInt (-8))] in
  let out := @evaluate_asset_for_investor example_builtins example_config example_exn_text
               asset investor false example_client in
  atom_id_of example_client 0 <> atom_id_of example_client 1
  /\ map fst (ATOM_STORE (snd out))
     = ["atom_00123456789a"; "atom_10123456789a"; "decision_2012345678"]
  /\ get "decision_2012345678" (ATOM_STORE (snd out)) = VDict (fst out).
Proof.
  cbv zeta.
  assert (N : atom_id_of example_client 0 <> atom_id_of example_client 1)
    by (vm_compute; discriminate).
  split; [exact N|]. split; [vm_compute; reflexivity|].
  destruct (@decision_ids_resolve example_exn_text
              (@the_shim example_builtins example_config)
              [("symbol", VStr "ABC"); ("percent_change", VInt (-8))]
              [("risk_tolerance", VStr "low")] false example_client N)
    as (iid & aid & did & ts & ts' & _ & _ & D & _ & _ & F & _).
  unfold evaluate_asset_for_investor.
  assert (Ed : did = "decision_2012345678").
  { assert (X : VStr did = VStr "decision_2012345678")
      by (rewrite <- D; vm_compute; reflexivity).
    injection X as X. exact X. }
  rewrite <- Ed. exact F.
Defined.

(* ----------------------------------------------------------------- *)
(** *** The growth of the store *)

Section Growth.
Context `{ExnText}.
Variable shim : Dict -> Dict -> bool -> M (Exn Decision).

Lemma keys_set_item k v d k' :
  In k' (keys (set_item k v d)) <-> k' = k \/ In k' (keys d).
Proof.
  unfold keys. induction d as [|[k0 x] d IH]; simpl.
  - intuition.
  - destruct (String.eqb k k0) eqn:E; simpl.
    + apply String.eqb_eq in E. subst k0. intuition.
    + rewrite IH. intuition.
Qed.

Lemma ids_of_batch_next c c1 n :
  c_uuid c1 = c_uuid c -> c_drawn c1 = (3 + c_drawn c)%nat ->
  ids_of_batch c (S n) = (ids_of_evaluation c 0 ++ ids_of_batch c1 n)%list.
Proof.
  intros U D. unfold ids_of_batch. rewrite <- cons_seq.
  change (flat_map (ids_of_evaluation c) (0%nat :: seq 1 n))
    with (ids_of_evaluation c 0 ++ flat_map (ids_of_evaluation c) (seq 1 n))%list.
  f_equal.
  rewrite <- seq_shift, flat_map_concat_map, map_map, <- flat_map_concat_map.
  apply flat_map_ext. intros i.
  unfold ids_of_evaluation, atom_id_of, decision_id_of. rewrite U, D.
  replace (c_drawn c + 3 * S i)%nat with (3 + c_drawn c + 3 * i)%nat by lia.
  replace (c_drawn c + (3 * S i + 1))%nat with (3 + c_drawn c + (3 * i + 1))%nat by lia.
  replace (c_drawn c + (3 * S i + 2))%nat with (3 + c_drawn c + (3 * i + 2))%nat by lia.
  reflexivity.
Qed.

(** [batch_evaluate], run on any shim. *)
Lemma batch_run assets investor rp : forall c,
  let out := batch_evaluate_with shim assets investor rp c in
  List.length (fst out) = List.length assets
  /\ c_uuid (snd out) = c_uuid c
  /\ c_drawn (snd out) = (3 * List.length assets + c_drawn c)%nat
  /\ (forall k, In k (keys (ATOM_STORE (snd out)))
                <-> In k (keys (ATOM_STORE c))
                    \/ In k (ids_of_batch c (List.length assets)))
  /\ (forall k, ~ In k (ids_of_batch c (List.length assets)) ->
                lookup k (ATOM_STORE (snd out)) = lookup k (ATOM_STORE c)).
Proof.
  cbv zeta. induction assets as [|a assets IH]; intros c.
  - simpl. repeat split; auto. intuition.
  - simpl batch_evaluate_with. unfold cbind.
    destruct (facade_run shim a investor rp c) as (w' & dbg & E). cbv zeta in E.
    rewrite E. clear E.
    match goal with
    | |- context [batch_evaluate_with shim assets investor rp ?c1] =>
        specialize (IH c1); set (c1' := c1) in *
    end.
    destruct (batch_evaluate_with shim assets investor rp c1') as [results c2].
    simpl in IH. destruct IH as (L & U & D & K & V). unfold cret. simpl fst. simpl snd.
    split; [simpl; lia|]. split; [exact U|]. split; [rewrite D; simpl; lia|].
    cbn [List.length].
    rewrite (ids_of_batch_next c c1' (List.length assets)) by reflexivity.
    split.
    + intros k. rewrite K, in_app_iff. unfold c1'. cbn [ATOM_STORE].
      rewrite !keys_set_item. unfold ids_of_evaluation. simpl In.
      replace (3 * 0)%nat with 0%nat by reflexivity. simpl Nat.add.
      intuition.
    + intros k N. rewrite in_app_iff in N.
      rewrite V by (intros I; apply N; right; exact I).
      unfold c1'. cbn [ATOM_STORE].
      unfold ids_of_evaluation in N. simpl In in N.
      replace (3 * 0)%nat with 0%nat in N by reflexivity. simpl Nat.add in N.
      rewrite !lookup_set_other; [reflexivity| | |];
        intros I; apply N; left; rewrite I; auto.
Qed.

End Growth.

Section Batches.
Context `{PyBuiltins} `{Config} `{ExnText}.

(** The store only grows. [batch_evaluate] returns one Decision for each
    asset and draws three ids for each: the investor profile is stored
    again for every asset, beside the asset and the Decision. The ids of the
    store afterwards are those it had and those drawn, nothing is removed,
    and what stands under an id that is not drawn again is left as it was. *)
Theorem batch_fills_the_store assets investor rp c :
  let out := batch_evaluate assets investor rp c in
  let n := List.length assets in
  List.length (fst out) = n
  /\ c_drawn (snd out) = (3 * n + c_drawn c)%nat
  /\ (forall k, In k (keys (ATOM_STORE (snd out)))
                <-> In k (keys (ATOM_STORE c)) \/ In k (ids_of_batch c n))
  /\ (forall k, ~ In k (ids_of_batch c n) ->
                fst (get_atom k (snd out)) = fst (get_atom k c)).
Proof.
  cbv zeta. unfold batch_evaluate.
  destruct (batch_run the_shim assets investor rp c) as (L & _ & D & K & V).
  cbv zeta in L, D, K, V.
  split; [exact L|]. split; [exact D|]. split; [exact K|].
  intros k N. unfold get_atom, get, get_default. simpl fst. rewrite V by exact N.
  reflexivity.
Qed.

End Batches.

(* ----------------------------------------------------------------- *)
(** *** The order of the keys, at any depth *)

Section Depth.
Context `{PyBuiltins}.

Lemma encode_reordered v v' :
  reordered v v' -> forall indent level, encode indent level v = encode indent level v'.
Proof.
  intros R.
  apply (reordered_mut
           (fun v v' => forall indent level, encode indent level v = encode indent level v')
           (fun l l' => forall indent level,
                map (encode indent level) l = map (encode indent level) l')
           (fun d d' => forall indent level,
                map (fun kv : string * PyVal =>
                       match kv with (k, x) => (k, encode indent level x) end) d
                = map (fun kv : string * PyVal =>
                         match kv with (k, x) => (k, encode indent level x) end) d'));
    try exact R; clear v v' R.
  - reflexivity.
  - intros l l' _ IH indent level. simpl. rewrite IH. reflexivity.
  - intros d d1 d' _ IH W P indent level. simpl. rewrite IH.
    rewrite (sort_items_permutation
               (map (fun kv => match kv with (k, x) => (k, encode indent (S level) x) end) d1)
               (map (fun kv => match kv with (k, x) => (k, encode indent (S level) x) end) d')).
    + reflexivity.
    + apply Permutation_map. exact P.
    + rewrite map_map. erewrite map_ext; [exact W|]. intros [k x]. reflexivity.
  - reflexivity.
  - intros v v' l l' _ IHv _ IHl indent level. simpl. rewrite IHv, IHl. reflexivity.
  - reflexivity.
  - intros k v v' d d' _ IHv _ IHd indent level. simpl. rewrite IHv, IHd. reflexivity.
Qed.

(** The order of the keys never matters, at any depth. Two values that
    differ only by the order of the keys of their dictionaries, nested ones
    included, have the same sorted JSON text, the same SHA-256 digest and
    the same indented text of [pretty_json]. *)
Theorem key_order_never_matters v v' :
  reordered v v' ->
  json_dumps_sorted v = json_dumps_sorted v'
  /\ sha256_of_obj v = sha256_of_obj v'
  /\ pretty_json v = pretty_json v'.
Proof.
  intros R. unfold sha256_of_obj, json_dumps_sorted, pretty_json.
  rewrite !(encode_reordered v v' R). auto.
Qed.

End Depth.

(** A snapshot with a nested dictionary, and the same with the keys of both
    dictionaries in another order. *)
Lemma key_order_never_matters_witness :
  let v := VDict [("symbol", VStr "XYZ");
                  ("esg", VDict [("carbon", VInt 3); ("report", VBool true)])] in
  let v' := VDict [("esg", VDict [("report", VBool true); ("carbon", VInt 3)]);
                   ("symbol", VStr "XYZ")] in
  reordered v v'
  /\ @sha256_of_obj example_builtins v = @sha256_of_obj example_builtins v'
  /\ @pretty_json example_builtins v = @pretty_json example_builtins v'.
Proof.
  cbv zeta.
  assert (R : reordered
                (VDict [("symbol", VStr "XYZ");
                        ("esg", VDict [("carbon", VInt 3); ("report", VBool true)])])
                (VDict [("esg", VDict [("report", VBool true); ("carbon", VInt 3)]);
                        ("symbol", VStr "XYZ")])).
  { apply (reordered_dict _
             [("symbol", VStr "XYZ");
              ("esg", VDict [("report", VBool true); ("carbon", VInt 3)])]).
    - apply items_more; [apply reordered_same|].
      apply items_more; [|apply items_none].
      apply (reordered_dict _ [("carbon", VInt 3); ("report", VBool true)]).
      + repeat constructor.
      + unfold wf_dict. simpl. repeat constructor; simpl; intuition discriminate.
      + apply perm_swap.
    - unfold wf_dict. simpl. repeat constructor; simpl; intuition discriminate.
    - apply perm_swap. }
  split; [exact R|].
  destruct (@key_order_never_matters example_builtins _ _ R) as (_ & S & P).
  split; [exact S|exact P].
Defined.

(* ----------------------------------------------------------------- *)
(** *** The market sources *)

Section Markets.
Context `{PyBuiltins} `{Config} `{Network}.

Lemma logged_nil w : logged w [] = w.
Proof. unfold logged. rewrite app_nil_r. destruct w; reflexivity. Qed.

Lemma logged_logged w a b : logged (logged w a) b = logged w (a ++ b).
Proof. unfold logged. simpl. rewrite <- app_assoc. reflexivity. Qed.

Lemma candidates_of_nothing source r :
  (forall sym w, get_asset_data sym source w = (VNone, logged w [r])) ->
  forall l w, candidates_of l source w = ([], logged w (map (fun _ => r) l)).
Proof.
  intros G. induction l as [|s l IH]; intros w; simpl.
  - unfold ret. rewrite logged_nil. reflexivity.
  - unfold bind. rewrite G, IH, logged_logged. reflexivity.
Qed.

(** A source that is not known gives no candidate and does not raise.
    [get_candidates] returns the empty list, and the world changes by the
    log only: one ERROR record for each symbol, so five of them when the
    symbols are [None] or the empty list, which stand for the default
    symbols. *)
Theorem unknown_source_gives_nothing symbols source w :
  ~ In source ["finnhub"; "yahoo"; "coingecko"] ->
  get_candidates symbols source w
  = ([], logged w (map (fun _ => unsupported source) (symbols_asked symbols))).
Proof.
  intros N. unfold get_candidates. apply candidates_of_nothing.
  intros sym w0. unfold get_asset_data.
  assert (E1 : String.eqb source "finnhub" = false)
    by (apply String.eqb_neq; intros E; apply N; simpl; auto).
  assert (E2 : String.eqb source "yahoo" = false)
    by (apply String.eqb_neq; intros E; apply N; simpl; auto).
  assert (E3 : String.eqb source "coingecko" = false)
    by (apply String.eqb_neq; intros E; apply N; simpl; auto).
  rewrite E1, E2, E3. reflexivity.
Qed.

(** Without a key, Finnhub is not asked. When [FINNHUB_API_KEY] is empty or
    [None], [get_candidates] on the source [finnhub] returns the empty list;
    no request is made and the clock is not read: the world changes by one
    ERROR record for each symbol. *)
Theorem no_key_no_request symbols w :
  truthy FINNHUB_API_KEY = false ->
  get_candidates symbols "finnhub" w
  = ([], logged w (map (fun _ => key_not_set) (symbols_asked symbols))).
Proof.
  intros K. unfold get_candidates. apply candidates_of_nothing.
  intros sym w0. unfold get_asset_data, finnhub_fetch. simpl String.eqb.
  rewrite K. reflexivity.
Qed.

(** The ESG data are optional, and only an HTTP error excuses them. When
    the quote and the profile are answered and the ESG request fails with
    [HTTPError], the asset is returned with its four ESG fields [None] and
    nothing is logged, and the carbon rule has no outcome on it whatever the
    investor asks. When the ESG request fails with another exception, the
    symbol gives [None] and one ERROR record. *)
Theorem esg_is_optional symbol quote profile e w w1 w2 w3 :
  truthy FINNHUB_API_KEY = true ->
  finnhub_get "quote" symbol w = (NetOk quote, w1) ->
  finnhub_get "stock/profile2" symbol w1 = (NetOk profile, w2) ->
  finnhub_get "stock/esg" symbol w2 = (NetRaise e, w3) ->
  match e with
  | HTTPError =>
      let asset := finnhub_asset symbol quote profile (VDict []) (w_clock w3 (w_reads w3)) in
      finnhub_fetch symbol w = (VDict asset, later w3 1)
      /\ Forall (fun k => get k asset = VNone)
           ["carbon_emissions"; "total_emissions"; "governance_score";
            "sustainability_report"]
      /\ forall investor, _rule_exclude_by_carbon investor asset = Ok no_outcome
  | OtherError x =>
      finnhub_fetch symbol w
      = (VNone, logged w3 [mkLog ERROR ("Unexpected error fetching " ++ symbol
                                         ++ " from Finnhub: ") (Some x)])
  end.
Proof.
  intros K Q P E. unfold finnhub_fetch, bind. rewrite K.
  change (negb true) with false. cbv beta iota.
  rewrite Q. cbv beta iota. rewrite P. cbv beta iota. rewrite E. destruct e as [|x].
  - cbv zeta. split; [reflexivity|]. split.
    + repeat constructor.
    + intros investor. unfold _rule_exclude_by_carbon.
      replace (py_or (get "carbon_emissions" _) _) with VNone by reflexivity.
      simpl is_none. rewrite orb_true_r. reflexivity.
  - reflexivity.
Qed.

Lemma finnhub_fetch_shape s w :
  fst (finnhub_fetch s w) = VNone
  \/ exists q p e now, fst (finnhub_fetch s w) = VDict (finnhub_asset s q p e now).
Proof.
  unfold finnhub_fetch, bind.
  destruct (negb (truthy FINNHUB_API_KEY)); [left; reflexivity|].
  destruct (finnhub_get "quote" s w) as [[q|e] w1];
    [|left; destruct e; reflexivity].
  destruct (finnhub_get "stock/profile2" s w1) as [[p|e] w2];
    [|left; destruct e; reflexivity].
  destruct (finnhub_get "stock/esg" s w2) as [[g|[|x]] w3].
  - right. repeat eexists.
  - right. repeat eexists.
  - left. reflexivity.
Qed.

Lemma coingecko_fetch_shape s w :
  fst (coingecko_fetch s w) = VNone
  \/ exists entry now, fst (coingecko_fetch s w) = VDict (coingecko_asset s entry now).
Proof.
  unfold coingecko_fetch, bind.
  destruct (cg_get_price s w) as [[data|e] w1]; [|left; reflexivity].
  destruct (negb (truthy data)); [left; reflexivity|].
  destruct data as [| | | | t|l|d]; try (left; reflexivity).
  - destruct (occurs_in s t); left; reflexivity.
  - destruct (existsb _ l); left; reflexivity.
  - destruct (lookup s d) as [[| | | | | |entry]|]; try (left; reflexivity).
    right. repeat eexists.
Qed.

Lemma candidates_picked source :
  (forall s w, fst (get_asset_data s source w) = VNone
               \/ exists d, fst (get_asset_data s source w) = VDict d
                            /\ lookup "symbol" d = Some (VStr s)) ->
  forall l w, picked_from (fst (candidates_of l source w)) l.
Proof.
  intros G. induction l as [|s l IH]; intros w; simpl.
  - constructor.
  - unfold bind. specialize (G s w).
    destruct (get_asset_data s source w) as [data w1]. simpl in G.
    specialize (IH w1). destruct (candidates_of l source w1) as [results w2].
    simpl in IH. simpl.
    destruct G as [G|(d & G & S)]; subst data.
    + simpl. constructor. exact IH.
    + destruct (truthy (VDict d)).
      * apply picked_take; assumption.
      * constructor. exact IH.
Qed.

Lemma picked_candidates cs l : picked_from cs l -> Forall (candidate_of l) cs.
Proof.
  induction 1 as [|s l cs P IH|s l d cs S P IH].
  - constructor.
  - eapply Forall_impl; [|exact IH].
    intros c (d & s' & E & I & L). exists d, s'. simpl. auto.
  - constructor.
    + exists d, s. simpl. auto.
    + eapply Forall_impl; [|exact IH].
      intros c (d' & s' & E & I & L). exists d', s'. simpl. auto.
Qed.

Lemma picked_length cs l : picked_from cs l -> (List.length cs <= List.length l)%nat.
Proof. induction 1; simpl; lia. Qed.

(** The candidates follow the symbols. For every source but [yahoo], each
    candidate that [get_candidates] returns is a dictionary whose [symbol]
    is the symbol it was fetched for; the candidates come in the order of
    the symbols, a symbol gives one candidate at most, and the symbols that
    failed are left out. *)
Theorem candidates_follow_the_symbols symbols source w :
  source <> "yahoo" ->
  let found := fst (get_candidates symbols source w) in
  picked_from found (symbols_asked symbols)
  /\ Forall (candidate_of (symbols_asked symbols)) found
  /\ (List.length found <= List.length (symbols_asked symbols))%nat.
Proof.
  intros Y. cbv zeta.
  assert (P : picked_from (fst (get_candidates symbols source w)) (symbols_asked symbols)).
  { unfold get_candidates. apply candidates_picked. intros s w0.
    unfold get_asset_data.
    destruct (String.eqb source "finnhub").
    - destruct (finnhub_fetch_shape s w0) as [E|(q & p & e & now & E)]; [left; exact E|].
      right. eexists. split; [exact E|reflexivity].
    - destruct (String.eqb source "yahoo") eqn:E2.
      + apply String.eqb_eq in E2. contradiction.
      + destruct (String.eqb source "coingecko").
        * destruct (coingecko_fetch_shape s w0) as [E|(entry & now & E)]; [left; exact E|].
          right. eexists. split; [exact E|reflexivity].
        * left. reflexivity. }
  split; [exact P|]. split; [apply picked_candidates|apply picked_length]; exact P.
Qed.

(** A CoinGecko asset is never accepted. The asset that the CoinGecko
    source returns has the six fields [symbol], [price], [market_cap],
    [24h_change], [timestamp] and [source]; it has no [percent_change] and
    no [expected_return], so the rule of the recent drop and the rule of
    return and risk are silent on it: its Decision is a reject by industry
    or by carbon, or the default deprioritize with confidence 0.2. *)
Theorem coingecko_asset_is_never_accepted id w asset :
  fst (coingecko_fetch id w) = VDict asset ->
  (exists entry now, asset = coingecko_asset id entry now)
  /\ forall investor rp w',
       let d := decision_of investor asset rp w' in
       d_decision d <> accept
       /\ In (d_decision d, d_confidence d, signature (d_reason_tree d))
            [(reject, 0.95, [("exclude_by_industry", reject, 0.95)]);
             (reject, 0.9, [("exclude_by_carbon", reject, 0.9)]);
             (deprioritize, 0.2, [("default_deprioritize", deprioritize, 0.2)])]%float.
Proof.
  intros F.
  assert (S : exists entry now, asset = coingecko_asset id entry now).
  { destruct (coingecko_fetch_shape id w) as [E|(entry & now & E)].
    - rewrite E in F. discriminate.
    - rewrite E in F. injection F as F. exists entry, now. symmetry. exact F. }
  split; [exact S|]. destruct S as (entry & now & ->).
  intros investor rp w'. apply no_return_ends; reflexivity.
Qed.

(** Of a Finnhub asset, the rules see three fields of the answers: the
    industry of the profile, the percent change of the quote and the carbon
    emissions of the ESG data. The asset has no [expected_return], no
    [volatility], [beta] or [stddev] and no [carbon_score], so the decision,
    the confidence and the reason tree are those of the dictionary of these
    three fields alone. *)
Theorem finnhub_decision_evidence investor symbol quote profile esg now :
  concluded (loop_of RULES investor (finnhub_asset symbol quote profile esg now))
  = concluded (loop_of RULES investor (finnhub_evidence quote profile esg)).
Proof.
  apply concluded_by_rules; reflexivity.
Qed.

End Markets.

(** A source that is not known, with the default symbols. *)
Lemma unknown_source_gives_nothing_witness :
  ~ In "bloomberg" ["finnhub"; "yahoo"; "coingecko"]
  /\ @get_candidates example_network None "bloomberg" (example_world true)
     = ([], logged (example_world true) (repeat (unsupported "bloomberg") 5)).
Proof.
  assert (N : ~ In "bloomberg" ["finnhub"; "yahoo"; "coingecko"])
    by (intros [E|[E|[E|[]]]]; discriminate).
  split; [exact N|].
  exact (@unknown_source_gives_nothing example_network None "bloomberg"
           (example_world true) N).
Defined.

(** Two symbols on the network that has no key. *)
Lemma no_key_no_request_witness :
  truthy (@FINNHUB_API_KEY example_network_without_key) = false
  /\ @get_candidates example_network_without_key (Some ["AAPL"; "MSFT"]) "finnhub"
       (example_world true)
     = ([], logged (example_world true) [key_not_set; key_not_set]).
Proof.
  assert (K : truthy (@FINNHUB_API_KEY example_network_without_key) = false)
    by reflexivity.
  split; [exact K|].
  exact (@no_key_no_request example_network_without_key (Some ["AAPL"; "MSFT"])
           (example_world true) K).
Defined.

(** The example network has no ESG data. *)
Lemma esg_is_optional_witness :
  let w := example_world true in
  (truthy (@FINNHUB_API_KEY example_network) = true
   /\ @finnhub_get example_network "stock/esg" "AAPL" w = (NetRaise HTTPError, w))
  /\ exists asset,
       @finnhub_fetch example_network "AAPL" w = (VDict asset, later w 1)
       /\ get "sector" asset = VStr "Technology"
       /\ get "percent_change" asset = VFloat (-6.2)
       /\ get "carbon_emissions" asset = VNone.
Proof.
  cbv zeta.
  assert (K : truthy (@FINNHUB_API_KEY example_network) = true) by reflexivity.
  assert (E : @finnhub_get example_network "stock/esg" "AAPL" (example_world true)
              = (NetRaise HTTPError, example_world true)) by reflexivity.
  split; [split; [exact K|exact E]|].
  pose proof (@esg_is_optional example_builtins example_network "AAPL" _ _ HTTPError
                (example_world true) (example_world true) (example_world true)
                (example_world true) K eq_refl eq_refl E) as T.
  cbv zeta in T. destruct T as (F & _ & _).
  eexists. split; [exact F|]. repeat split; reflexivity.
Defined.

(** Two symbols on the example network. *)
Lemma candidates_follow_the_symbols_witness :
  "finnhub" <> "yahoo"
  /\ picked_from (fst (@get_candidates example_network (Some ["AAPL"; "MSFT"]) "finnhub"
                         (example_world true)))
       ["AAPL"; "MSFT"].
Proof.
  assert (Y : "finnhub" <> "yahoo") by discriminate.
  split; [exact Y|].
  exact (proj1 (@candidates_follow_the_symbols example_network (Some ["AAPL"; "MSFT"])
                  "finnhub" (example_world true) Y)).
Defined.

(** Bitcoin after a fall of 7.5 percent, for an investor of high risk
    tolerance. *)
Lemma coingecko_asset_is_never_accepted_witness :
  let w := example_world true in
  let asset := coingecko_asset "bitcoin"
                 [("usd", VInt 60000); ("usd_24h_change", VFloat (-7.5))] 1700000000 in
  let investor : Dict := [("risk_tolerance", VStr "high")] in
  fst (@coingecko_fetch example_network "bitcoin" w) = VDict asset
  /\ d_decision (@decision_of example_builtins example_config investor asset false w)
     <> accept.
Proof.
  cbv zeta.
  assert (F : fst (@coingecko_fetch example_network "bitcoin" (example_world true))
              = VDict (coingecko_asset "bitcoin"
                         [("usd", VInt 60000); ("usd_24h_change", VFloat (-7.5))]
                         1700000000)) by reflexivity.
  split; [exact F|].
  destruct (@coingecko_asset_is_never_accepted example_builtins example_config
              example_network "bitcoin" (example_world true) _ F) as (_ & D).
  exact (proj1 (D [("risk_tolerance", VStr "high")] false (example_world true))).
Defined.
